(** * olympiabhub: the Olympia API client ([olympiabhub/api.py])

    A shallow embedding of the class [OlympiaAPI] and of the part of the
    [requests] library it drives, followed by the properties of the client.

    Conventions of the embedding.
    - A Python value (an argument, a JSON payload) is a [value]; a [dict] with
      string keys is a [gmap string _].  Floating-point numbers are left out:
      the client never inspects a number.
    - A method runs in the monad [run]: it yields the list of network calls
      it issued, the lines it logged with [logger.error], and either a
      returned value or a raised exception.  A raised exception is recorded
      by its class and its argument, as the [raise] statement builds it.
    - The transport is a pair of parameters: [managers], what the adapter
      of a fresh session does when asked for the proxy manager of a URL
      (raise, or make one), and [net], what [request] does with a call
      (raise, or hand back a response). *)

From stdpp Require Import gmap strings list fin_maps.
From Stdlib Require Import ZArith Ascii DecimalString.

#[local] Set Warnings "-register-all".
#[local] Open Scope string_scope.
#[local] Open Scope Z_scope.

(** ** Python values *)

Inductive value : Type :=
  | VNone
  | VBool (b : bool)
  | VInt (z : Z)
  | VStr (s : string)
  | VList (l : list value)
  | VDict (d : gmap string value).

(** [bool(v)]: the truth value that [not v], [a or b] and [if v] test. *)
Definition truthy (v : value) : bool :=
  match v with
  | VNone => false
  | VBool b => b
  | VInt z => negb (z =? 0)
  | VStr s => negb (String.eqb s "")
  | VList l => match l with [] => false | _ :: _ => true end
  | VDict d => negb (bool_decide (d = ∅))
  end.

(** [type(v).__name__], as it appears in the text of a [TypeError]. *)
Definition type_name (v : value) : string :=
  match v with
  | VNone => "NoneType"
  | VBool _ => "bool"
  | VInt _ => "int"
  | VStr _ => "str"
  | VList _ => "list"
  | VDict _ => "dict"
  end.

Fixpoint characters (s : string) : list value :=
  match s with
  | EmptyString => []
  | String c s' => VStr (String c EmptyString) :: characters s'
  end.

(** [iter(v)]: the elements a [for] clause ranges over; [None] when the
    value is not iterable.  A string yields its characters, a [dict] its
    keys. *)
Definition py_iter (v : value) : option (list value) :=
  match v with
  | VList l => Some l
  | VStr s => Some (characters s)
  | VDict d => Some (VStr <$> (map_to_list d).*1)
  | VNone | VBool _ | VInt _ => None
  end.

(** [isinstance(v, str)] *)
Definition isinstance_str (v : value) : bool :=
  match v with VStr _ => true | _ => false end.

(** Truth value of an optional string ([None] or [str]), and Python's
    [a or b] on such operands. *)
Definition str_truthy (o : option string) : bool :=
  match o with
  | Some s => negb (String.eqb s "")
  | None => false
  end.

Definition py_or (a b : option string) : option string :=
  if str_truthy a then a else b.

(** ** The [requests] library, as far as the client uses it *)

Module requests.

(** [requests.exceptions]; [Foreign] stands for an exception class outside
    this hierarchy. *)
Inductive exception_class : Type :=
  | RequestException
  | InvalidJSONError
  | JSONDecodeError
  | HTTPError
  | ConnectionError
  | ProxyError
  | SSLError
  | Timeout
  | ConnectTimeout
  | ReadTimeout
  | URLRequired
  | TooManyRedirects
  | MissingSchema
  | InvalidSchema
  | InvalidURL
  | InvalidHeader
  | InvalidProxyURL
  | ChunkedEncodingError
  | ContentDecodingError
  | StreamConsumedError
  | RetryError
  | UnrewindableBodyError
  | Foreign (name : string).

#[export] Instance exception_class_eq_dec : EqDecision exception_class.
Proof. solve_decision. Defined.

(** The direct base classes inside the hierarchy. *)
Definition bases (c : exception_class) : list exception_class :=
  match c with
  | RequestException => []
  | InvalidJSONError => [RequestException]
  | JSONDecodeError => [InvalidJSONError]
  | HTTPError => [RequestException]
  | ConnectionError => [RequestException]
  | ProxyError => [ConnectionError]
  | SSLError => [ConnectionError]
  | Timeout => [RequestException]
  | ConnectTimeout => [ConnectionError; Timeout]
  | ReadTimeout => [Timeout]
  | URLRequired => [RequestException]
  | TooManyRedirects => [RequestException]
  | MissingSchema => [RequestException]
  | InvalidSchema => [RequestException]
  | InvalidURL => [RequestException]
  | InvalidHeader => [RequestException]
  | InvalidProxyURL => [InvalidURL]
  | ChunkedEncodingError => [RequestException]
  | ContentDecodingError => [RequestException]
  | StreamConsumedError => [RequestException]
  | RetryError => [RequestException]
  | UnrewindableBodyError => [RequestException]
  | Foreign _ => []
  end.

Fixpoint issubclass_within (depth : nat) (c d : exception_class) : bool :=
  bool_decide (c = d) ||
  match depth with
  | O => false
  | S depth' => existsb (fun b => issubclass_within depth' b d) (bases c)
  end.

(** No chain of bases is longer than three classes. *)
Definition issubclass : exception_class -> exception_class -> bool :=
  issubclass_within 3.

(** A raised exception: its class and [str(e)]. *)
Record exception : Type := Exception {
  exc_class : exception_class;
  exc_str : string
}.

Definition isinstance (e : exception) (c : exception_class) : bool :=
  issubclass (exc_class e) c.

(** What [response.json()] does. *)
Inductive json_outcome : Type :=
  | JsonValue (v : value)
  | JsonRaises (e : exception).

Record Response : Type := {
  status_code : Z;
  reason : string;
  url : string;
  text : string;
  json : json_outcome
}.

Definition decimal (z : Z) : string := NilZero.string_of_int (Z.to_int z).

(** [Response.raise_for_status]: [None] when it returns, the [HTTPError]
    when it raises, which it does for the statuses 400 to 599. *)
Definition raise_for_status (r : Response) : option exception :=
  if (400 <=? status_code r) && (status_code r <? 500) then
    Some (Exception HTTPError
            (decimal (status_code r) +:+ " Client Error: " +:+ reason r
               +:+ " for url: " +:+ url r))
  else if (500 <=? status_code r) && (status_code r <? 600) then
    Some (Exception HTTPError
            (decimal (status_code r) +:+ " Server Error: " +:+ reason r
               +:+ " for url: " +:+ url r))
  else None.

(** [Response.ok], which is also [bool(response)]. *)
Definition ok (r : Response) : bool :=
  match raise_for_status r with
  | Some _ => false
  | None => true
  end.

(** A [Session]: its [proxies] mapping, and the [proxy_headers] of the
    proxy managers of the adapter mounted on [https://], by proxy URL. *)
Record Session : Type := {
  proxies : gmap string string;
  https_proxy_headers : gmap string (gmap string string)
}.

(** [requests.Session()] *)
Definition new_Session : Session :=
  {| proxies := ∅; https_proxy_headers := ∅ |}.

(** [manager.proxy_headers[name] = v], for the proxy manager that the
    adapter mounted on [https://] keeps for [proxy_url].  [made] holds the
    headers of a manager made for the occasion; one the session already
    keeps is used as it is. *)
Definition set_proxy_header (proxy_url : string) (made : gmap string string)
    (name v : string) (s : Session) : Session :=
  {| proxies := proxies s;
     https_proxy_headers :=
       <[proxy_url :=
           <[name := v]> (default made (https_proxy_headers s !! proxy_url))]>
         (https_proxy_headers s) |}.

(** [session.proxies.update(d)] *)
Definition proxies_update (d : gmap string string) (s : Session) : Session :=
  {| proxies := d ∪ proxies s;
     https_proxy_headers := https_proxy_headers s |}.

(** One call of [request(method=, url=, headers=, json=)], on a session or,
    with [call_session = None], on the module [requests] itself. *)
Record Call : Type := {
  call_session : option Session;
  call_method : string;
  call_url : string;
  call_headers : gmap string string;
  call_json : option value
}.

(** What a call to [request] does. *)
Inductive request_outcome : Type :=
  | Raises (e : exception)
  | Responds (r : Response).

End requests.

(** ** Results and effects of a method *)

(** The exceptions a method of the client can leave with: the built-in
    classes the source raises, the ones the interpreter raises for a failed
    subscript, iteration or unbound name, and [Uncaught e] for an exception
    of the transport that no [except] clause matched. *)
Inductive exn : Type :=
  | ConnectionError (msg : string)
  | TimeoutError (msg : string)
  | ValueError (msg : string)
  | RuntimeError (msg : string)
  | KeyError (key : string)
  | TypeError (msg : string)
  | UnboundLocalError (name : string)
  | Uncaught (e : requests.exception).

(** What [adapter.proxy_manager_for(proxy_url)] does on a fresh session:
    raise (a URL it cannot parse), or make a manager, whose [proxy_headers]
    start with what the library derives from the URL (the
    Proxy-Authorization of a URL with credentials). *)
Inductive manager_outcome : Type :=
  | ManagerRaises (x : exn)
  | ManagerMade (proxy_headers : gmap string string).

Inductive result (A : Type) : Type :=
  | Return (a : A)
  | Raise (e : exn).
Arguments Return {A} a.
Arguments Raise {A} e.

Record run (A : Type) : Type := Run {
  calls : list requests.Call;
  logged : list string;
  outcome : result A
}.
Arguments Run {A} calls logged outcome.
Arguments calls {A} r.
Arguments logged {A} r.
Arguments outcome {A} r.

Definition ret {A} (a : A) : run A := Run [] [] (Return a).
Definition raise {A} (e : exn) : run A := Run [] [] (Raise e).

(** Sequencing: the effects of both steps in order, unless the first one
    raises. *)
Definition bind {A B} (k : A -> run B) (m : run A) : run B :=
  match outcome m with
  | Return a =>
      Run (calls m ++ calls (k a)) (logged m ++ logged (k a)) (outcome (k a))
  | Raise e => Run (calls m) (logged m) (Raise e)
  end.

#[export] Instance run_ret : MRet run := @ret.
#[export] Instance run_bind : MBind run := @bind.

(** [v[key]] for a string key. *)
Definition getitem (v : value) (key : string) : result value :=
  match v with
  | VDict d =>
      match d !! key with
      | Some x => Return x
      | None => Raise (KeyError key)
      end
  | VList _ =>
      Raise (TypeError "list indices must be integers or slices, not str")
  | VStr _ => Raise (TypeError "string indices must be integers, not 'str'")
  | VNone | VBool _ | VInt _ =>
      Raise (TypeError ("'" +:+ type_name v +:+ "' object is not subscriptable"))
  end.

(** ** The class [OlympiaAPI] *)

Record OlympiaAPI : Type := {
  token : string;
  model : string;
  base_url : string;
  nubonyxia_proxy : option string;
  nubonyxia_user_agent : string
}.

(** [os.getenv] on the process environment. *)
Definition getenv (environ : gmap string string) (name : string)
  : option string := environ !! name.

Definition __init__ (environ : gmap string string)
    (model : string) (token proxy : option string) : run OlympiaAPI :=
  let self_token :=
    py_or (py_or token (getenv environ "OLYMPIA_API_KEY"))
          (getenv environ "OLYMPIA_API_TOKEN") in
  match self_token with
  | Some t =>
      if negb (String.eqb t "") then
        ret {| token := t;
               model := model;
               base_url := "https://api.olympia.bhub.cloud";
               nubonyxia_proxy := py_or proxy (getenv environ "PROXY");
               nubonyxia_user_agent :=
                 "Mozilla/5.0 (Windows NT 10.0; Win64; x64; rv:102.0) Gecko/20100101 Firefox/102.0" |}
      else
        raise (ValueError
          "Token is required. Set OLYMPIA_API_KEY/OLYMPIA_API_TOKEN or pass as parameter.")
  | None =>
      raise (ValueError
        "Token is required. Set OLYMPIA_API_KEY/OLYMPIA_API_TOKEN or pass as parameter.")
  end.

Definition _get_headers (self : OlympiaAPI) : gmap string string :=
  {[ "accept" := "application/json";
     "Authorization" := "Bearer " +:+ token self;
     "Content-Type" := "application/json" ]}.

(** The body of the [try] statement of [_make_request]: either the value it
    returns, or the exception raised inside it together with the binding of
    the local [response] at that point ([None]: not yet assigned). *)
Inductive try_outcome : Type :=
  | Returned (v : value)
  | Excepted (e : requests.exception) (response : option requests.Response).

Definition try_body (o : requests.request_outcome) : try_outcome :=
  match o with
  | requests.Raises e => Excepted e None
  | requests.Responds response =>
      match requests.raise_for_status response with
      | Some e => Excepted e (Some response)
      | None =>
          match requests.json response with
          | requests.JsonValue v => Returned v
          | requests.JsonRaises e => Excepted e (Some response)
          end
      end
  end.

(** The [except] clauses of [_make_request], in source order: the line
    logged, if any, and the exception the clause leaves with. *)
Definition except_clauses (e : requests.exception)
    (response : option requests.Response) : list string * exn :=
  if requests.isinstance e requests.ConnectionError then
    (["Connection error: " +:+ requests.exc_str e],
     ConnectionError ("Failed to connect: " +:+ requests.exc_str e))
  else if requests.isinstance e requests.Timeout then
    (["Timeout error: " +:+ requests.exc_str e],
     TimeoutError ("Request timed out: " +:+ requests.exc_str e))
  else if requests.isinstance e requests.HTTPError then
    match response with
    | None => ([], UnboundLocalError "response")
    | Some r =>
        (["HTTP error: " +:+ requests.exc_str e +:+ ", Response: " +:+
            (if requests.ok r then requests.text r else "No response")],
         ValueError ("HTTP error occurred: " +:+ requests.exc_str e))
    end
  else if requests.isinstance e requests.RequestException then
    (["Request error: " +:+ requests.exc_str e],
     RuntimeError ("Request failed: " +:+ requests.exc_str e))
  else ([], Uncaught e).

(** The set-up of [_make_request] before its [try] statement: the URL, the
    session (a fresh [Session] when [use_proxy], else the module [requests])
    with its proxy settings, and the keyword arguments of the call to
    [request].  Asking for the proxy manager can raise; nothing catches
    that. *)
Definition outbound_call (managers : string -> manager_outcome)
    (self : OlympiaAPI) (method endpoint : string)
    (data : option value) (use_proxy : bool) : result requests.Call :=
  let url := base_url self +:+ "/" +:+ endpoint in
  let session :=
    if use_proxy then Some requests.new_Session else None in
  let call session :=
    {| requests.call_session := session;
       requests.call_method := method;
       requests.call_url := url;
       requests.call_headers := _get_headers self;
       requests.call_json := data |} in
  match nubonyxia_proxy self with
  | Some proxy =>
      if use_proxy && negb (String.eqb proxy "") then
        match managers ("http://" +:+ proxy) with
        | ManagerRaises x => Raise x
        | ManagerMade made =>
            Return (call
              (requests.proxies_update {[ "http" := proxy; "https" := proxy ]}
               <$> (requests.set_proxy_header ("http://" +:+ proxy) made
                      "User-Agent" (nubonyxia_user_agent self)
                    <$> session)))
        end
      else Return (call session)
  | None => Return (call session)
  end.

(** The [try] statement of [_make_request] and its [except] clauses, on the
    call the set-up built. *)
Definition execute (net : requests.Call -> requests.request_outcome)
    (call : requests.Call) : run value :=
  match try_body (net call) with
  | Returned v => Run [call] [] (Return v)
  | Excepted e response =>
      Run [call] (except_clauses e response).1
          (Raise (except_clauses e response).2)
  end.

Section Client.

(** The transport: the proxy managers the adapter makes, and what [request]
    does with each call. *)
Variable managers : string -> manager_outcome.
Variable net : requests.Call -> requests.request_outcome.

Definition _make_request (self : OlympiaAPI) (method endpoint : string)
    (data : option value) (use_proxy : bool) : run value :=
  match outbound_call managers self method endpoint data use_proxy with
  | Raise x => Run [] [] (Raise x)
  | Return request => execute net request
  end.

Definition Chat (self : OlympiaAPI) (prompt : string) : run value :=
  _make_request self "POST" "generate"
    (Some (VDict {[ "model" := VStr (model self);
                    "prompt" := VStr prompt ]}))
    false.

Definition ChatNubonyxia (self : OlympiaAPI) (prompt : string) : run value :=
  _make_request self "POST" "generate"
    (Some (VDict {[ "model" := VStr (model self);
                    "prompt" := VStr prompt ]}))
    true.

(** The test [not texts or not all(isinstance(text, str) for text in
    texts)] of both embedding methods; it raises when [texts] is true but
    not iterable. *)
Definition texts_refused (texts : value) : result bool :=
  if negb (truthy texts) then Return true
  else
    match py_iter texts with
    | Some elements => Return (negb (forallb isinstance_str elements))
    | None =>
        Raise (TypeError ("'" +:+ type_name texts
                            +:+ "' object is not iterable"))
    end.

Definition create_embedding (self : OlympiaAPI) (texts : value)
  : run value :=
  refused ← Run [] [] (texts_refused texts);
  if (refused : bool) then
    raise (ValueError "Texts must be a non-empty list of strings")
  else
    _make_request self "POST" "embedding"
      (Some (VDict {[ "model" := VStr (model self); "texts" := texts ]}))
      false.

Definition create_embedding_nubonyxia (self : OlympiaAPI) (texts : value)
  : run value :=
  refused ← Run [] [] (texts_refused texts);
  if (refused : bool) then
    raise (ValueError "Texts must be a non-empty list of strings")
  else
    _make_request self "POST" "embedding"
      (Some (VDict {[ "model" := VStr (model self); "texts" := texts ]}))
      true.

Definition get_llm_models (self : OlympiaAPI) (use_proxy : bool)
  : run value :=
  payload ← _make_request self "GET" "modeles" None use_proxy;
  Run [] [] (getitem payload "modèles").

Definition get_embedding_models (self : OlympiaAPI) (use_proxy : bool)
  : run value :=
  payload ← _make_request self "GET" "embedding/models" None use_proxy;
  Run [] [] (getitem payload "modèles").

End Client.

(** ** Notions used by the properties *)

(** A client that came out of the constructor. *)
Definition constructed (self : OlympiaAPI) : Prop :=
  exists environ model token proxy,
    outcome (__init__ environ model token proxy) = Return self.

(** The value a run returned, if it returned. *)
Definition returned {A} (r : run A) : option A :=
  match outcome r with
  | Return a => Some a
  | Raise _ => None
  end.

(** The four failures of the taxonomy of request execution. *)
Definition typed_failure (x : exn) : bool :=
  match x with
  | ConnectionError _ | TimeoutError _ | ValueError _ | RuntimeError _ => true
  | KeyError _ | TypeError _ | UnboundLocalError _ | Uncaught _ => false
  end.

(** Token resolution as the specification words it: the first candidate, in
    priority order, that is present and not empty. *)
Fixpoint spec_first_resolved (candidates : list (option string))
  : option string :=
  match candidates with
  | [] => None
  | Some s :: rest =>
      if String.eqb s "" then spec_first_resolved rest else Some s
  | None :: rest => spec_first_resolved rest
  end.

(** Header fields are compared without regard to case, as [requests] does
    when it prepares a call. *)
Definition ascii_lower (c : ascii) : ascii :=
  let n := N_of_ascii c in
  if ((65 <=? n) && (n <=? 90))%N then ascii_of_N (n + 32) else c.

Fixpoint str_lower (s : string) : string :=
  match s with
  | EmptyString => EmptyString
  | String c s' => String (ascii_lower c) (str_lower s')
  end.

Definition header_field (name : string) (headers : gmap string string)
  : option string :=
  match
    filter (fun kv : string * string => str_lower kv.1 = str_lower name)
      (map_to_list headers)
  with
  | (_, v) :: _ => Some v
  | [] => None
  end.

(** ** Sample inputs *)

Definition sample_client : OlympiaAPI :=
  {| token := "secret";
     model := "test_model";
     base_url := "https://api.olympia.bhub.cloud";
     nubonyxia_proxy := Some "proxy.example:3128";
     nubonyxia_user_agent :=
       "Mozilla/5.0 (Windows NT 10.0; Win64; x64; rv:102.0) Gecko/20100101 Firefox/102.0" |}.

Definition sample_response (status : Z) (reason text : string)
    (json : requests.json_outcome) : requests.Response :=
  {| requests.status_code := status;
     requests.reason := reason;
     requests.url := "https://api.olympia.bhub.cloud/generate";
     requests.text := text;
     requests.json := json |}.

(** A host that does not answer in time while connecting. *)
Definition connect_timeout : requests.exception :=
  requests.Exception requests.ConnectTimeout "connect timed out".

Definition read_timeout : requests.exception :=
  requests.Exception requests.ReadTimeout "read timed out".

Definition not_json : requests.exception :=
  requests.Exception requests.JSONDecodeError
    "Expecting value: line 1 column 1 (char 0)".

(** The body [{"response": "ok"}], and the payload it parses to. *)
Definition dquote : string := String (ascii_of_nat 34) EmptyString.

Definition ok_body_text : string :=
  "{" +:+ dquote +:+ "response" +:+ dquote +:+ ": "
      +:+ dquote +:+ "ok" +:+ dquote +:+ "}".

Definition ok_payload : value := VDict {[ "response" := VStr "ok" ]}.

Definition ok_response : requests.Response :=
  sample_response 200 "OK" ok_body_text (requests.JsonValue ok_payload).

(** A listing of two models, under the key of the upstream service. *)
Definition models_payload : value :=
  VDict {[ "modèles" := VList [VStr "m1"; VStr "m2"] ]}.

(** A client whose proxy address cannot be parsed, and one whose proxy
    address is a URL with its scheme. *)
Definition unparsable_proxy_client : OlympiaAPI :=
  {| token := "secret";
     model := "test_model";
     base_url := "https://api.olympia.bhub.cloud";
     nubonyxia_proxy := Some "[::1";
     nubonyxia_user_agent :=
       "Mozilla/5.0 (Windows NT 10.0; Win64; x64; rv:102.0) Gecko/20100101 Firefox/102.0" |}.


(** The adapter on these addresses: it cannot parse the URL with a bracket
    left open, and makes a manager without headers of its own for the
    others. *)
Definition sample_managers (proxy_url : string) : manager_outcome :=
  if String.eqb proxy_url "http://[::1" then
    ManagerRaises (ValueError "Invalid IPv6 URL")
  else ManagerMade ∅.

Definition net_raising (e : requests.exception)
  : requests.Call -> requests.request_outcome :=
  fun _ => requests.Raises e.

Definition net_responding (r : requests.Response)
  : requests.Call -> requests.request_outcome :=
  fun _ => requests.Responds r.

(** ** The public operations as one family *)

(** A public method of the client together with its arguments. *)
Inductive operation : Type :=
  | OpChat (prompt : string)
  | OpChatNubonyxia (prompt : string)
  | OpCreateEmbedding (texts : value)
  | OpCreateEmbeddingNubonyxia (texts : value)
  | OpGetLlmModels (use_proxy : bool)
  | OpGetEmbeddingModels (use_proxy : bool).

Definition perform (managers : string -> manager_outcome)
    (net : requests.Call -> requests.request_outcome)
    (self : OlympiaAPI) (op : operation) : run value :=
  match op with
  | OpChat prompt => Chat managers net self prompt
  | OpChatNubonyxia prompt => ChatNubonyxia managers net self prompt
  | OpCreateEmbedding texts => create_embedding managers net self texts
  | OpCreateEmbeddingNubonyxia texts =>
      create_embedding_nubonyxia managers net self texts
  | OpGetLlmModels use_proxy => get_llm_models managers net self use_proxy
  | OpGetEmbeddingModels use_proxy =>
      get_embedding_models managers net self use_proxy
  end.

(** The endpoints the client addresses. *)
Definition endpoints : list string :=
  ["generate"; "embedding"; "modeles"; "embedding/models"].

(** Whether an operation ends with the subscript of the listing methods. *)
Definition is_listing (op : operation) : bool :=
  match op with
  | OpGetLlmModels _ | OpGetEmbeddingModels _ => true
  | _ => false
  end.

(** [s.startswith(prefix)] *)
Fixpoint startswith (prefix s : string) : bool :=
  match prefix, s with
  | EmptyString, _ => true
  | String a prefix', String b s' => bool_decide (a = b) && startswith prefix' s'
  | String _ _, EmptyString => false
  end.

(** * Properties *)

(** ** Construction *)

Lemma str_truthy_Some (o : option string) :
  str_truthy o = true <-> exists s, o = Some s /\ s <> "".
Proof.
  destruct o as [s|]; simpl.
  - rewrite negb_true_iff, String.eqb_neq. split.
    + intros Hs. exists s. done.
    + intros (s' & [= <-] & Hs). done.
  - split; [done | intros (s & Hs & _); done].
Qed.

Lemma py_or_first_resolved (a b : option string) (rest : list (option string)) :
  spec_first_resolved (a :: b :: rest) = spec_first_resolved (py_or a b :: rest).
Proof.
  unfold py_or. destruct a as [s|]; simpl; [|done].
  destruct (String.eqb s "") eqn:Hs; simpl; [done|]. by rewrite Hs.
Qed.

Lemma init_run environ model token proxy :
  __init__ environ model token proxy =
  match
    spec_first_resolved
      [token; environ !! "OLYMPIA_API_KEY"; environ !! "OLYMPIA_API_TOKEN"]
  with
  | Some t =>
      ret {| token := t;
             model := model;
             base_url := "https://api.olympia.bhub.cloud";
             nubonyxia_proxy := py_or proxy (environ !! "PROXY");
             nubonyxia_user_agent :=
               "Mozilla/5.0 (Windows NT 10.0; Win64; x64; rv:102.0) Gecko/20100101 Firefox/102.0" |}
  | None =>
      raise (ValueError
        "Token is required. Set OLYMPIA_API_KEY/OLYMPIA_API_TOKEN or pass as parameter.")
  end.
Proof.
  rewrite !py_or_first_resolved. unfold __init__, getenv.
  destruct (py_or _ _) as [t|]; simpl; [|done].
  by destruct (String.eqb t "").
Qed.

Lemma first_resolved_nonempty (candidates : list (option string)) (t : string) :
  spec_first_resolved candidates = Some t -> t <> "".
Proof.
  induction candidates as [|[s|] rest IH]; simpl; [done| |done].
  destruct (String.eqb s "") eqn:Hs; [done|].
  intros [= <-]. by apply String.eqb_neq.
Qed.

(** What the constructor fixes in every client it returns. *)
Lemma constructed_fields (self : OlympiaAPI) :
  constructed self ->
  token self <> "" /\
  base_url self = "https://api.olympia.bhub.cloud" /\
  nubonyxia_user_agent self =
    "Mozilla/5.0 (Windows NT 10.0; Win64; x64; rv:102.0) Gecko/20100101 Firefox/102.0".
Proof.
  intros (environ & m & tok & proxy & Hrun). rewrite init_run in Hrun.
  destruct (spec_first_resolved _) as [t|] eqn:Ht; simpl in Hrun; [|done].
  injection Hrun as <-. simpl. split; [|done].
  by eapply first_resolved_nonempty.
Qed.

Lemma sample_client_constructed : constructed sample_client.
Proof.
  exists ∅, "test_model", (Some "secret"), (Some "proxy.example:3128").
  reflexivity.
Qed.

(** C6. The constructor resolves the token from the explicit argument, then
    the variable OLYMPIA_API_KEY, then the variable OLYMPIA_API_TOKEN, taking
    the first that is present and not empty.  When there is none it raises
    the [ValueError] of a missing token; otherwise it returns a client that
    stores that token.  Either way it issues no network call. *)
Theorem init_resolves_token_in_priority_order
    (environ : gmap string string) (model : string)
    (token_arg proxy : option string) :
  calls (__init__ environ model token_arg proxy) = [] /\
  match
    spec_first_resolved
      [token_arg; environ !! "OLYMPIA_API_KEY"; environ !! "OLYMPIA_API_TOKEN"]
  with
  | Some t =>
      t <> "" /\
      exists self,
        outcome (__init__ environ model token_arg proxy) = Return self /\
        token self = t
  | None =>
      outcome (__init__ environ model token_arg proxy) =
      Raise (ValueError
        "Token is required. Set OLYMPIA_API_KEY/OLYMPIA_API_TOKEN or pass as parameter.")
  end.
Proof.
  rewrite init_run.
  destruct (spec_first_resolved _) as [t|] eqn:Ht; simpl; [|done].
  split; [done|]. split; [by eapply first_resolved_nonempty|]. eauto.
Qed.

Example init_argument_first :
  token <$> returned
    (__init__ {[ "OLYMPIA_API_KEY" := "from_key";
                 "OLYMPIA_API_TOKEN" := "from_token" ]}
       "m" (Some "from_argument") None) = Some "from_argument".
Proof. reflexivity. Qed.

Example init_key_before_token :
  token <$> returned
    (__init__ {[ "OLYMPIA_API_KEY" := "from_key";
                 "OLYMPIA_API_TOKEN" := "from_token" ]}
       "m" None None) = Some "from_key".
Proof. reflexivity. Qed.

Example init_empty_candidates_skipped :
  token <$> returned
    (__init__ {[ "OLYMPIA_API_KEY" := ""; "OLYMPIA_API_TOKEN" := "from_token" ]}
       "m" (Some "") None) = Some "from_token".
Proof. reflexivity. Qed.

Example init_without_token :
  __init__ ∅ "m" None None =
  Run [] []
    (Raise (ValueError
      "Token is required. Set OLYMPIA_API_KEY/OLYMPIA_API_TOKEN or pass as parameter.")).
Proof. reflexivity. Qed.

(** ** Headers *)

(** C7. [_get_headers] returns exactly three headers: accept (the source
    spells the field name in lower case; field names are matched without
    regard to case) with application/json, Authorization with Bearer
    followed by the stored token, and Content-Type with application/json.
    It is a function of the stored token alone: it issues no call and logs
    nothing, and clients with the same token get equal headers. *)
Theorem get_headers_exact (self : OlympiaAPI) :
  _get_headers self =
    {[ "accept" := "application/json";
       "Authorization" := "Bearer " +:+ token self;
       "Content-Type" := "application/json" ]} /\
  size (_get_headers self) = 3%nat /\
  header_field "Accept" (_get_headers self) = Some "application/json" /\
  header_field "Authorization" (_get_headers self) =
    Some ("Bearer " +:+ token self) /\
  header_field "Content-Type" (_get_headers self) = Some "application/json" /\
  (forall other : OlympiaAPI,
     token other = token self -> _get_headers other = _get_headers self).
Proof.
  repeat split; try reflexivity.
  intros other Htoken. unfold _get_headers. by rewrite Htoken.
Qed.

(** ** The exception hierarchy *)

Lemma issubclass_refl (c : requests.exception_class) :
  requests.issubclass c c = true.
Proof.
  unfold requests.issubclass. simpl. by rewrite bool_decide_eq_true_2.
Qed.

(** Every class of the hierarchy derives from [RequestException]; a foreign
    class does not. *)
Lemma issubclass_RequestException (c : requests.exception_class) :
  requests.issubclass c requests.RequestException =
  match c with requests.Foreign _ => false | _ => true end.
Proof. by destruct c. Qed.

(** The bound on the length of chains is enough: one more step finds no
    further base. *)
Lemma issubclass_depth_enough (c d : requests.exception_class) :
  requests.issubclass_within 4 c d = requests.issubclass c d.
Proof.
  unfold requests.issubclass.
  destruct c; simpl; rewrite ?orb_false_r; try reflexivity;
    repeat (destruct (bool_decide _); simpl; try reflexivity).
Qed.

Lemma ConnectTimeout_both :
  requests.issubclass requests.ConnectTimeout requests.ConnectionError = true /\
  requests.issubclass requests.ConnectTimeout requests.Timeout = true.
Proof. done. Qed.

(** The three specific classes the client catches are below the catch-all. *)
Lemma caught_classes_are_RequestExceptions (e : requests.exception) :
  requests.isinstance e requests.ConnectionError
  || requests.isinstance e requests.Timeout
  || requests.isinstance e requests.HTTPError = true ->
  requests.isinstance e requests.RequestException = true.
Proof.
  unfold requests.isinstance. rewrite issubclass_RequestException.
  by destruct (requests.exc_class e).
Qed.

(** ** [raise_for_status] *)

Lemma raise_for_status_error (r : requests.Response) :
  400 <= requests.status_code r < 600 ->
  requests.raise_for_status r =
  Some (requests.Exception requests.HTTPError
          (requests.decimal (requests.status_code r)
             +:+ (if requests.status_code r <? 500
                  then " Client Error: " else " Server Error: ")
             +:+ requests.reason r +:+ " for url: " +:+ requests.url r)).
Proof.
  intros [Hlo Hhi]. unfold requests.raise_for_status.
  destruct (Z.ltb_spec (requests.status_code r) 500) as [Hlt|Hge].
  - by rewrite (proj2 (Z.leb_le _ _) Hlo).
  - rewrite andb_false_r.
    by rewrite (proj2 (Z.leb_le _ _) Hge), (proj2 (Z.ltb_lt _ _) Hhi).
Qed.

Lemma raise_for_status_passes (r : requests.Response) :
  requests.status_code r < 400 \/ 600 <= requests.status_code r ->
  requests.raise_for_status r = None.
Proof.
  intros Hs. unfold requests.raise_for_status.
  destruct (Z.leb_spec 400 (requests.status_code r)),
    (Z.ltb_spec (requests.status_code r) 500),
    (Z.leb_spec 500 (requests.status_code r)),
    (Z.ltb_spec (requests.status_code r) 600); simpl; try done; lia.
Qed.

(** ** Text *)

Lemma str_app_assoc (a b c : string) : (a +:+ b) +:+ c = a +:+ (b +:+ c).
Proof.
  induction a as [|x a IH]; [done|].
  change (String x ((a +:+ b) +:+ c) = String x (a +:+ (b +:+ c))).
  by rewrite IH.
Qed.

Lemma str_app_nil_r (a : string) : a +:+ "" = a.
Proof.
  induction a as [|x a IH]; [done|].
  change (String x (a +:+ "") = String x a). by rewrite IH.
Qed.

Lemma startswith_app (prefix s : string) :
  startswith prefix (prefix +:+ s) = true.
Proof.
  induction prefix as [|x prefix IH]; [done|].
  change (bool_decide (x = x) && startswith prefix (prefix +:+ s) = true).
  by rewrite bool_decide_eq_true_2.
Qed.

(** ** Request execution *)

Section Execution.

Variable managers : string -> manager_outcome.
Variable net : requests.Call -> requests.request_outcome.

Implicit Types (self : OlympiaAPI) (method endpoint : string).
Implicit Types (data : option value) (use_proxy : bool).
Implicit Types (call : requests.Call) (e : requests.exception).
Implicit Types (response : option requests.Response).

(** When the set-up raises, that is the whole run: no call, no log. *)
Lemma make_request_set_up_raised self method endpoint data use_proxy x :
  outbound_call managers self method endpoint data use_proxy = Raise x ->
  _make_request managers net self method endpoint data use_proxy =
  Run [] [] (Raise x).
Proof. unfold _make_request. by intros ->. Qed.

(** When the set-up builds a call, the run is the execution on it. *)
Lemma make_request_issued self method endpoint data use_proxy call :
  outbound_call managers self method endpoint data use_proxy = Return call ->
  _make_request managers net self method endpoint data use_proxy =
  execute net call.
Proof. unfold _make_request. by intros ->. Qed.

(** One call to the network per execution, whatever comes back. *)
Lemma execute_calls call : calls (execute net call) = [call].
Proof. unfold execute. by destruct (try_body _). Qed.

Lemma make_request_calls self method endpoint data use_proxy call :
  outbound_call managers self method endpoint data use_proxy = Return call ->
  calls (_make_request managers net self method endpoint data use_proxy) =
  [call].
Proof. intros ->%make_request_issued. apply execute_calls. Qed.

Lemma execute_returned call v :
  try_body (net call) = Returned v ->
  execute net call = Run [call] [] (Return v).
Proof. unfold execute. by intros ->. Qed.

Lemma execute_excepted call e response :
  try_body (net call) = Excepted e response ->
  execute net call =
  Run [call] (except_clauses e response).1
      (Raise (except_clauses e response).2).
Proof. unfold execute. by intros ->. Qed.

(** A response whose body parses is handed back when the status passes
    [raise_for_status]. *)
Lemma execute_success call r v :
  net call = requests.Responds r ->
  requests.status_code r < 400 \/ 600 <= requests.status_code r ->
  requests.json r = requests.JsonValue v ->
  execute net call = Run [call] [] (Return v).
Proof.
  intros Hnet Hstatus Hjson. apply execute_returned.
  unfold try_body. by rewrite Hnet, raise_for_status_passes, Hjson.
Qed.

(** A response with an error status leaves the [try] body through
    [raise_for_status], with [response] bound. *)
Lemma try_body_error_status call r :
  net call = requests.Responds r ->
  400 <= requests.status_code r < 600 ->
  exists e,
    requests.raise_for_status r = Some e /\
    requests.exc_class e = requests.HTTPError /\
    try_body (net call) = Excepted e (Some r).
Proof.
  intros Hnet Hstatus. eexists. split; [by apply raise_for_status_error|].
  split; [done|]. unfold try_body.
  by rewrite Hnet, raise_for_status_error.
Qed.

End Execution.

(** ** The set-up *)

Section SetUp.

Variable managers : string -> manager_outcome.

Implicit Types (self : OlympiaAPI) (method endpoint : string).
Implicit Types (data : option value) (use_proxy : bool).
Implicit Types (call : requests.Call).

(** Whatever the session, the call built has the method, the address, the
    headers and the body the method was given. *)
Lemma outbound_call_fields self method endpoint data use_proxy call :
  outbound_call managers self method endpoint data use_proxy = Return call ->
  requests.call_method call = method /\
  requests.call_url call = base_url self +:+ "/" +:+ endpoint /\
  requests.call_headers call = _get_headers self /\
  requests.call_json call = data.
Proof.
  unfold outbound_call.
  destruct (nubonyxia_proxy self) as [proxy|]; [|by intros [= <-]].
  destruct (use_proxy && negb (String.eqb proxy "")); [|by intros [= <-]].
  destruct (managers _) as [x|made]; [done | by intros [= <-]].
Qed.

(** Without the proxy flag there is no set-up that could fail. *)
Lemma outbound_call_direct self method endpoint data :
  outbound_call managers self method endpoint data false =
  Return {| requests.call_session := None;
            requests.call_method := method;
            requests.call_url := base_url self +:+ "/" +:+ endpoint;
            requests.call_headers := _get_headers self;
            requests.call_json := data |}.
Proof. unfold outbound_call. by destruct (nubonyxia_proxy self). Qed.

(** Nor with the flag when no proxy address is configured. *)
Lemma outbound_call_unconfigured self method endpoint data :
  str_truthy (nubonyxia_proxy self) = false ->
  outbound_call managers self method endpoint data true =
  Return {| requests.call_session := Some requests.new_Session;
            requests.call_method := method;
            requests.call_url := base_url self +:+ "/" +:+ endpoint;
            requests.call_headers := _get_headers self;
            requests.call_json := data |}.
Proof.
  unfold outbound_call.
  destruct (nubonyxia_proxy self) as [proxy|]; simpl; [|done].
  by intros ->%negb_false_iff.
Qed.

(** With the flag and an address, the set-up is what the adapter makes of
    the URL of http:// and the address. *)
Lemma outbound_call_configured self method endpoint data proxy :
  nubonyxia_proxy self = Some proxy -> proxy <> "" ->
  outbound_call managers self method endpoint data true =
  match managers ("http://" +:+ proxy) with
  | ManagerRaises x => Raise x
  | ManagerMade made =>
      Return
        {| requests.call_session :=
             Some {| requests.proxies :=
                       {[ "http" := proxy; "https" := proxy ]};
                     requests.https_proxy_headers :=
                       {[ "http://" +:+ proxy :=
                            <["User-Agent" := nubonyxia_user_agent self]>
                              made ]} |};
           requests.call_method := method;
           requests.call_url := base_url self +:+ "/" +:+ endpoint;
           requests.call_headers := _get_headers self;
           requests.call_json := data |}
  end.
Proof.
  intros Hproxy Hne. unfold outbound_call. rewrite Hproxy. simpl.
  rewrite (proj2 (String.eqb_neq _ _) Hne). simpl.
  destruct (managers _) as [x|made]; [done|].
  unfold requests.proxies_update, requests.set_proxy_header. simpl.
  by rewrite lookup_empty, (right_id_L ∅ (∪)).
Qed.

End SetUp.

(** The clauses, taken one at a time. *)
Section ExceptClauses.

Variables (e : requests.exception) (response : option requests.Response).

Lemma except_ConnectionError :
  requests.isinstance e requests.ConnectionError = true ->
  except_clauses e response =
  (["Connection error: " +:+ requests.exc_str e],
   ConnectionError ("Failed to connect: " +:+ requests.exc_str e)).
Proof. unfold except_clauses. by intros ->. Qed.

Lemma except_Timeout :
  requests.isinstance e requests.ConnectionError = false ->
  requests.isinstance e requests.Timeout = true ->
  except_clauses e response =
  (["Timeout error: " +:+ requests.exc_str e],
   TimeoutError ("Request timed out: " +:+ requests.exc_str e)).
Proof. unfold except_clauses. by intros -> ->. Qed.

Lemma except_HTTPError (r : requests.Response) :
  requests.exc_class e = requests.HTTPError ->
  response = Some r ->
  except_clauses e response =
  (["HTTP error: " +:+ requests.exc_str e +:+ ", Response: " +:+
      (if requests.ok r then requests.text r else "No response")],
   ValueError ("HTTP error occurred: " +:+ requests.exc_str e)).
Proof.
  unfold except_clauses, requests.isinstance. by intros -> ->.
Qed.

Lemma except_RequestException :
  requests.isinstance e requests.ConnectionError = false ->
  requests.isinstance e requests.Timeout = false ->
  requests.isinstance e requests.HTTPError = false ->
  requests.isinstance e requests.RequestException = true ->
  except_clauses e response =
  (["Request error: " +:+ requests.exc_str e],
   RuntimeError ("Request failed: " +:+ requests.exc_str e)).
Proof. unfold except_clauses. by intros -> -> -> ->. Qed.

(** A transport-layer exception leaves as one of the four typed failures,
    unless it is an [HTTPError] raised while [response] is unbound. *)
Lemma except_typed :
  requests.isinstance e requests.RequestException = true ->
  (requests.isinstance e requests.ConnectionError = false ->
   requests.isinstance e requests.Timeout = false ->
   requests.isinstance e requests.HTTPError = true ->
   is_Some response) ->
  typed_failure (except_clauses e response).2 = true.
Proof.
  intros Hreq Hbound. unfold except_clauses.
  destruct (requests.isinstance e requests.ConnectionError); [done|].
  destruct (requests.isinstance e requests.Timeout); [done|].
  destruct (requests.isinstance e requests.HTTPError).
  - by destruct Hbound as [r ->].
  - by rewrite Hreq.
Qed.

(** Every typed failure is logged with exactly one line. *)
Lemma except_typed_logged :
  typed_failure (except_clauses e response).2 = true ->
  length (except_clauses e response).1 = 1%nat.
Proof.
  unfold except_clauses.
  repeat (case_match; simpl; try done).
Qed.

End ExceptClauses.


(** ** The failure taxonomy of [_make_request] *)

(** C1, amended.  Whenever an exception is raised inside the [try] block,
    by [request], [raise_for_status] or [response.json()], the one call that
    was issued is not repeated and [_make_request] leaves with an exception
    (nothing is swallowed), chosen by the first matching clause: an instance
    of the transport's [ConnectionError], which includes a connect timeout,
    gives the built-in [ConnectionError]; a [Timeout] that is not a
    connection error gives [TimeoutError]; a response with a status from
    400 to 599 gives the [ValueError] of a rejected request; any other
    [RequestException] gives [RuntimeError].  A transport-layer exception
    thus leaves as one of these four, provided an [HTTPError] comes with a
    response. *)
Theorem make_request_failure_taxonomy
    (managers : string -> manager_outcome)
    (net : requests.Call -> requests.request_outcome)
    (self : OlympiaAPI) (method endpoint : string) (data : option value)
    (use_proxy : bool) (call : requests.Call)
    (e : requests.exception) (response : option requests.Response) :
  outbound_call managers self method endpoint data use_proxy = Return call ->
  try_body (net call) = Excepted e response ->
  calls (_make_request managers net self method endpoint data use_proxy) =
    [call] /\
  (exists x,
     outcome (_make_request managers net self method endpoint data use_proxy) =
     Raise x) /\
  (requests.isinstance e requests.ConnectionError = true ->
   outcome (_make_request managers net self method endpoint data use_proxy) =
   Raise (ConnectionError ("Failed to connect: " +:+ requests.exc_str e))) /\
  (requests.isinstance e requests.ConnectionError = false ->
   requests.isinstance e requests.Timeout = true ->
   outcome (_make_request managers net self method endpoint data use_proxy) =
   Raise (TimeoutError ("Request timed out: " +:+ requests.exc_str e))) /\
  (forall r,
     net call = requests.Responds r ->
     400 <= requests.status_code r < 600 ->
     outcome (_make_request managers net self method endpoint data use_proxy) =
     Raise (ValueError ("HTTP error occurred: " +:+ requests.exc_str e))) /\
  (requests.isinstance e requests.ConnectionError = false ->
   requests.isinstance e requests.Timeout = false ->
   requests.isinstance e requests.HTTPError = false ->
   requests.isinstance e requests.RequestException = true ->
   outcome (_make_request managers net self method endpoint data use_proxy) =
   Raise (RuntimeError ("Request failed: " +:+ requests.exc_str e))) /\
  (requests.isinstance e requests.RequestException = true ->
   (requests.isinstance e requests.ConnectionError = false ->
    requests.isinstance e requests.Timeout = false ->
    requests.isinstance e requests.HTTPError = true ->
    is_Some response) ->
   exists x,
     outcome (_make_request managers net self method endpoint data use_proxy) =
       Raise x /\
     typed_failure x = true).
Proof.
  intros Hcall Hcause.
  rewrite (make_request_issued _ _ _ _ _ _ _ _ Hcall).
  rewrite (execute_excepted _ _ _ _ Hcause).
  simpl. split; [done|]. split; [eauto|]. repeat split.
  - intros Hc. by rewrite except_ConnectionError.
  - intros Hc Ht. by rewrite except_Timeout.
  - intros r Hnet Hstatus.
    destruct (try_body_error_status _ _ _ Hnet Hstatus)
      as (e' & _ & Hclass & Hbody).
    rewrite Hcause in Hbody. injection Hbody as -> ->.
    by rewrite (except_HTTPError _ _ r).
  - intros Hc Ht Hh Hr. by rewrite except_RequestException.
  - intros Hr Hbound. eexists. split; [done|]. by apply except_typed.
Qed.

Lemma make_request_failure_taxonomy_witness :
  outcome (_make_request sample_managers (net_raising read_timeout)
             sample_client "POST" "generate" None false) =
  Raise (TimeoutError "Request timed out: read timed out").
Proof.
  destruct (make_request_failure_taxonomy sample_managers
              (net_raising read_timeout)
              sample_client "POST" "generate" None false _ read_timeout None
              eq_refl eq_refl) as (_ & _ & _ & Htimeout & _).
  apply Htimeout; reflexivity.
Defined.

(** C1 as first stated fails twice over.  A connect timeout is a timeout,
    yet the failure raised is the [ConnectionError]; and a response with
    status 300, which is not a 2xx status, is not rejected: its payload is
    returned. *)
Lemma make_request_taxonomy_counterexample :
  requests.isinstance connect_timeout requests.Timeout = true /\
  outcome (_make_request sample_managers (net_raising connect_timeout)
             sample_client "POST" "generate" None false) =
    Raise (ConnectionError "Failed to connect: connect timed out") /\
  outcome (_make_request sample_managers
             (net_responding
                (sample_response 300 "Multiple Choices" "[]"
                   (requests.JsonValue (VList []))))
             sample_client "POST" "generate" None false) =
    Return (VList []).
Proof. repeat split. Qed.

(** C9. [ConnectTimeout] derives from both [ConnectionError] and [Timeout];
    an exception that is an instance of both leaves [_make_request] as the
    built-in [ConnectionError], never as [TimeoutError], because the clause
    for connection errors comes first; and when [TimeoutError] is raised,
    the cause is a [Timeout] that is not a connection error. *)
Theorem connect_timeout_is_connection_failure
    (managers : string -> manager_outcome)
    (net : requests.Call -> requests.request_outcome)
    (self : OlympiaAPI) (method endpoint : string) (data : option value)
    (use_proxy : bool) (call : requests.Call)
    (e : requests.exception) (response : option requests.Response) :
  outbound_call managers self method endpoint data use_proxy = Return call ->
  try_body (net call) = Excepted e response ->
  requests.issubclass requests.ConnectTimeout requests.ConnectionError = true /\
  requests.issubclass requests.ConnectTimeout requests.Timeout = true /\
  (requests.exc_class e = requests.ConnectTimeout ->
   outcome (_make_request managers net self method endpoint data use_proxy) =
   Raise (ConnectionError ("Failed to connect: " +:+ requests.exc_str e))) /\
  (requests.isinstance e requests.ConnectionError = true ->
   requests.isinstance e requests.Timeout = true ->
   outcome (_make_request managers net self method endpoint data use_proxy) =
     Raise (ConnectionError ("Failed to connect: " +:+ requests.exc_str e)) /\
   forall msg,
     outcome (_make_request managers net self method endpoint data use_proxy)
     <> Raise (TimeoutError msg)) /\
  (forall msg,
     outcome (_make_request managers net self method endpoint data use_proxy) =
     Raise (TimeoutError msg) ->
     requests.isinstance e requests.Timeout = true /\
     requests.isinstance e requests.ConnectionError = false /\
     msg = "Request timed out: " +:+ requests.exc_str e).
Proof.
  intros Hcall Hcause.
  rewrite (make_request_issued _ _ _ _ _ _ _ _ Hcall).
  rewrite (execute_excepted _ _ _ _ Hcause).
  simpl. split; [done|]. split; [done|]. split; [|split].
  - intros Hclass. rewrite except_ConnectionError; [done|].
    unfold requests.isinstance. by rewrite Hclass.
  - intros Hconn _. by rewrite except_ConnectionError.
  - intros msg. unfold except_clauses.
    destruct (requests.isinstance e requests.ConnectionError); [done|].
    destruct (requests.isinstance e requests.Timeout); simpl.
    + by intros [= <-].
    + repeat (case_match; simpl; try done).
Qed.

Lemma connect_timeout_is_connection_failure_witness :
  outcome (_make_request sample_managers (net_raising connect_timeout)
             sample_client "GET" "modeles" None true) =
  Raise (ConnectionError "Failed to connect: connect timed out").
Proof.
  destruct (connect_timeout_is_connection_failure sample_managers
              (net_raising connect_timeout) sample_client "GET" "modeles"
              None true _ connect_timeout None eq_refl eq_refl)
    as (_ & _ & Hconnect & _).
  apply Hconnect; reflexivity.
Defined.

(** ** Rejected requests *)

Lemma execute_error_status (net : requests.Call -> requests.request_outcome)
    (call : requests.Call) (r : requests.Response) :
  net call = requests.Responds r ->
  400 <= requests.status_code r < 600 ->
  execute net call =
  Run [call]
    ["HTTP error: " +:+ requests.decimal (requests.status_code r)
       +:+ (if requests.status_code r <? 500
            then " Client Error: " else " Server Error: ")
       +:+ requests.reason r +:+ " for url: " +:+ requests.url r
       +:+ ", Response: No response"]
    (Raise (ValueError
       ("HTTP error occurred: " +:+ requests.decimal (requests.status_code r)
          +:+ (if requests.status_code r <? 500
               then " Client Error: " else " Server Error: ")
          +:+ requests.reason r +:+ " for url: " +:+ requests.url r))).
Proof.
  intros Hnet Hstatus. unfold execute, try_body.
  rewrite Hnet, raise_for_status_error by done.
  rewrite (except_HTTPError _ _ r) by done. simpl.
  unfold requests.ok. rewrite raise_for_status_error by done.
  by rewrite !str_app_assoc.
Qed.

(** The line logged for a rejected request: the test [if response] is the
    test [response.ok], false for every status that [raise_for_status]
    rejects, so the line ends with the words No response. *)
Lemma rejected_request_log
    (managers : string -> manager_outcome)
    (net : requests.Call -> requests.request_outcome)
    (self : OlympiaAPI) (method endpoint : string) (data : option value)
    (use_proxy : bool) (call : requests.Call)
    (r : requests.Response) (e : requests.exception) :
  outbound_call managers self method endpoint data use_proxy = Return call ->
  net call = requests.Responds r ->
  requests.raise_for_status r = Some e ->
  logged (_make_request managers net self method endpoint data use_proxy) =
  ["HTTP error: " +:+ requests.exc_str e +:+ ", Response: No response"].
Proof.
  intros Hcall Hnet Hraise.
  assert (Hclass : requests.exc_class e = requests.HTTPError).
  { unfold requests.raise_for_status in Hraise.
    repeat case_match; by simplify_eq. }
  rewrite (make_request_issued _ _ _ _ _ _ _ _ Hcall).
  rewrite (execute_excepted _ _ e (Some r)).
  - rewrite (except_HTTPError _ _ r); [|done..].
    unfold requests.ok. by rewrite Hraise.
  - unfold try_body. by rewrite Hnet, Hraise.
Qed.

(** C8, amended.  For a response with a status from 400 to 599 the failure
    raised is a [ValueError] whose only content is a message: the words HTTP
    error occurred followed by the text of the [HTTPError], which names the
    status code, the reason phrase and the URL.  The body of the response is
    no part of it: responses that agree on status, reason and URL give the
    same failure. *)
Theorem rejected_failure_carries_message_only
    (managers : string -> manager_outcome)
    (net : requests.Call -> requests.request_outcome)
    (self : OlympiaAPI) (method endpoint : string) (data : option value)
    (use_proxy : bool) (call : requests.Call) (r : requests.Response) :
  outbound_call managers self method endpoint data use_proxy = Return call ->
  net call = requests.Responds r ->
  400 <= requests.status_code r < 600 ->
  outcome (_make_request managers net self method endpoint data use_proxy) =
    Raise (ValueError
      ("HTTP error occurred: " +:+ requests.decimal (requests.status_code r)
         +:+ (if requests.status_code r <? 500
              then " Client Error: " else " Server Error: ")
         +:+ requests.reason r +:+ " for url: " +:+ requests.url r)) /\
  (forall net' r',
     net' call = requests.Responds r' ->
     requests.status_code r' = requests.status_code r ->
     requests.reason r' = requests.reason r ->
     requests.url r' = requests.url r ->
     outcome (_make_request managers net' self method endpoint data use_proxy)
     = outcome (_make_request managers net self method endpoint data
                  use_proxy)).
Proof.
  intros Hcall Hnet Hstatus.
  rewrite (make_request_issued _ net _ _ _ _ _ _ Hcall).
  rewrite (execute_error_status _ _ r) by done.
  split; [done|]. intros net' r' Hnet' Hs Hr Hu.
  rewrite (make_request_issued _ net' _ _ _ _ _ _ Hcall).
  rewrite (execute_error_status _ _ r') by (done || lia).
  simpl. by rewrite Hs, Hr, Hu.
Qed.

Lemma rejected_failure_carries_message_only_witness :
  outcome (_make_request sample_managers
             (net_responding
                (sample_response 503 "Service Unavailable" "try later"
                   (requests.JsonRaises not_json)))
             sample_client "POST" "generate" None false) =
  Raise (ValueError
    "HTTP error occurred: 503 Server Error: Service Unavailable for url: https://api.olympia.bhub.cloud/generate").
Proof.
  refine (proj1 (rejected_failure_carries_message_only sample_managers
                   (net_responding
                      (sample_response 503 "Service Unavailable" "try later"
                         (requests.JsonRaises not_json)))
                   sample_client "POST" "generate" None false _ _
                   eq_refl eq_refl _)).
  simpl. lia.
Defined.

(** C8 as first stated fails: two rejected responses that differ only in
    their body give one and the same failure, so the failure does not carry
    the body. *)
Lemma rejected_failure_body_counterexample :
  requests.text (sample_response 400 "Bad Request" "first body"
                   (requests.JsonValue VNone)) <>
  requests.text (sample_response 400 "Bad Request" "second body"
                   (requests.JsonValue VNone)) /\
  outcome (Chat sample_managers
             (net_responding
                (sample_response 400 "Bad Request" "first body"
                   (requests.JsonValue VNone)))
             sample_client "hi") =
    Raise (ValueError
      "HTTP error occurred: 400 Client Error: Bad Request for url: https://api.olympia.bhub.cloud/generate") /\
  outcome (Chat sample_managers
             (net_responding
                (sample_response 400 "Bad Request" "second body"
                   (requests.JsonValue VNone)))
             sample_client "hi") =
    Raise (ValueError
      "HTTP error occurred: 400 Client Error: Bad Request for url: https://api.olympia.bhub.cloud/generate").
Proof. split; [discriminate|]. split; reflexivity. Qed.

(** ** Proxy routing *)

Lemma unparsable_proxy_client_constructed :
  constructed unparsable_proxy_client.
Proof. exists ∅, "test_model", (Some "secret"), (Some "[::1"). reflexivity. Qed.





(** ** Sequencing *)

Lemma bind_Return {A B} (a : A) (k : A -> run B) :
  (Run [] [] (Return a) ≫= k) = k a.
Proof. unfold mbind, run_bind, bind. simpl. by destruct (k a). Qed.

Lemma bind_Raise {A B} (x : exn) (k : A -> run B) :
  (Run [] [] (Raise x) ≫= k) = Run [] [] (Raise x).
Proof. done. Qed.

Lemma bind_calls {A B} (m : run A) (k : A -> run B) (a : A) :
  outcome m = Return a -> calls (m ≫= k) = (calls m ++ calls (k a))%list.
Proof. unfold mbind, run_bind, bind. by intros ->. Qed.

Lemma bind_outcome {A B} (m : run A) (k : A -> run B) (a : A) :
  outcome m = Return a -> outcome (m ≫= k) = outcome (k a).
Proof. unfold mbind, run_bind, bind. by intros ->. Qed.

Lemma bind_calls_step {A B} (m : run A) (k : A -> run B) :
  (forall a, calls (k a) = []) -> calls (m ≫= k) = calls m.
Proof.
  intros Hk. unfold mbind, run_bind, bind.
  destruct (outcome m) as [a|x]; simpl; [|done].
  by rewrite Hk, app_nil_r.
Qed.

(** ** Chat *)

(** C4. For a constructed client and every prompt, [Chat] issues one call:
    a POST to the base URL joined with generate, with the client's headers,
    the JSON body of model and prompt, on the module [requests] (no session,
    no proxy).  When the response has a 2xx status and its body parses as
    JSON, the parsed value is returned unchanged; so a 200 response whose
    body parses to the mapping of response to ok returns that mapping. *)
Theorem chat_posts_and_returns_payload
    (managers : string -> manager_outcome)
    (net : requests.Call -> requests.request_outcome)
    (self : OlympiaAPI) (prompt : string) (call : requests.Call) :
  constructed self ->
  call = {| requests.call_session := None;
            requests.call_method := "POST";
            requests.call_url := "https://api.olympia.bhub.cloud/generate";
            requests.call_headers := _get_headers self;
            requests.call_json :=
              Some (VDict {[ "model" := VStr (model self);
                             "prompt" := VStr prompt ]}) |} ->
  calls (Chat managers net self prompt) = [call] /\
  (forall r v,
     net call = requests.Responds r ->
     200 <= requests.status_code r < 300 ->
     requests.json r = requests.JsonValue v ->
     outcome (Chat managers net self prompt) = Return v) /\
  (forall r,
     net call = requests.Responds r ->
     requests.status_code r = 200 ->
     requests.json r = requests.JsonValue ok_payload ->
     outcome (Chat managers net self prompt) = Return ok_payload).
Proof.
  intros Hself ->. destruct (constructed_fields _ Hself) as (_ & Hbase & _).
  assert (Hrun : Chat managers net self prompt =
    execute net
      {| requests.call_session := None;
         requests.call_method := "POST";
         requests.call_url := "https://api.olympia.bhub.cloud/generate";
         requests.call_headers := _get_headers self;
         requests.call_json :=
           Some (VDict {[ "model" := VStr (model self);
                          "prompt" := VStr prompt ]}) |}).
  { unfold Chat. erewrite make_request_issued; [reflexivity|].
    rewrite outbound_call_direct. by rewrite Hbase. }
  rewrite Hrun. split; [apply execute_calls|].
  assert (Hok : forall r v,
    net {| requests.call_session := None;
           requests.call_method := "POST";
           requests.call_url := "https://api.olympia.bhub.cloud/generate";
           requests.call_headers := _get_headers self;
           requests.call_json :=
             Some (VDict {[ "model" := VStr (model self);
                            "prompt" := VStr prompt ]}) |} =
      requests.Responds r ->
    200 <= requests.status_code r < 300 ->
    requests.json r = requests.JsonValue v ->
    outcome (execute net
      {| requests.call_session := None;
         requests.call_method := "POST";
         requests.call_url := "https://api.olympia.bhub.cloud/generate";
         requests.call_headers := _get_headers self;
         requests.call_json :=
           Some (VDict {[ "model" := VStr (model self);
                          "prompt" := VStr prompt ]}) |}) = Return v).
  { intros r v Hnet Hstatus Hjson.
    rewrite (execute_success _ _ r v); [done..|lia|done]. }
  split; [done|].
  intros r Hnet Hstatus Hjson. apply (Hok r); [done|lia|done].
Qed.

Lemma chat_posts_and_returns_payload_witness :
  outcome (Chat sample_managers (net_responding ok_response) sample_client
             "hi") =
  Return (VDict {[ "response" := VStr "ok" ]}).
Proof.
  destruct (chat_posts_and_returns_payload sample_managers
              (net_responding ok_response)
              sample_client "hi" _ sample_client_constructed eq_refl)
    as (_ & _ & Hverbatim).
  apply (Hverbatim ok_response); reflexivity.
Defined.

(** ** Model listings *)

(** The key is the UTF-8 text of the upstream field name, with its accented
    letter: eight bytes, and not the seven ASCII letters of the endpoint. *)
Lemma models_key_bytes :
  String.length "modèles" = 8%nat /\ "modèles" <> "modeles".
Proof. split; [reflexivity | discriminate]. Qed.

Lemma getitem_lookup (payload : value) (key : string) (x : value) :
  getitem payload key = Return x <->
  exists d, payload = VDict d /\ d !! key = Some x.
Proof.
  split.
  - destruct payload; simpl; try done.
    destruct (d !! key) as [y|] eqn:Hy; [|done].
    intros [= <-]. eauto.
  - intros (d & -> & Hd). simpl. by rewrite Hd.
Qed.

(** A failed subscript is none of the typed failures. *)
Lemma getitem_failure_untyped (payload : value) (key : string) (x : exn) :
  getitem payload key = Raise x -> typed_failure x = false.
Proof.
  destruct payload; simpl; try (by intros [= <-]).
  destruct (d !! key); [done | by intros [= <-]].
Qed.

Section Listings.

Variable managers : string -> manager_outcome.
Variable net : requests.Call -> requests.request_outcome.
Variables (self : OlympiaAPI) (use_proxy : bool).

(** Both listing methods are a GET followed by one subscript. *)
Lemma listing_run (endpoint : string) (call : requests.Call)
    (r : requests.Response) (payload : value) :
  outbound_call managers self "GET" endpoint None use_proxy = Return call ->
  net call = requests.Responds r ->
  requests.status_code r < 400 \/ 600 <= requests.status_code r ->
  requests.json r = requests.JsonValue payload ->
  (_make_request managers net self "GET" endpoint None use_proxy ≫=
     fun payload => Run [] [] (getitem payload "modèles")) =
  Run [call] [] (getitem payload "modèles").
Proof.
  intros Hcall Hnet Hstatus Hjson.
  rewrite (make_request_issued _ _ _ _ _ _ _ _ Hcall).
  by rewrite (execute_success _ _ r payload).
Qed.

Lemma listing_calls (endpoint : string) (call : requests.Call) :
  outbound_call managers self "GET" endpoint None use_proxy = Return call ->
  calls (_make_request managers net self "GET" endpoint None use_proxy ≫=
           fun payload => Run [] [] (getitem payload "modèles")) =
  [call].
Proof.
  intros Hcall. rewrite bind_calls_step; [|done].
  by apply make_request_calls.
Qed.

(** What a listing does with the response to its call. *)
Lemma listing_of_payload (endpoint : string) (call : requests.Call) :
  outbound_call managers self "GET" endpoint None use_proxy = Return call ->
  calls (_make_request managers net self "GET" endpoint None use_proxy ≫=
           fun payload => Run [] [] (getitem payload "modèles")) = [call] /\
  requests.call_method call = "GET" /\
  requests.call_url call = base_url self +:+ "/" +:+ endpoint /\
  requests.call_json call = None /\
  forall r payload,
    net call = requests.Responds r ->
    200 <= requests.status_code r < 300 ->
    requests.json r = requests.JsonValue payload ->
    (forall d models,
       payload = VDict d -> d !! "modèles" = Some models ->
       outcome
         (_make_request managers net self "GET" endpoint None use_proxy ≫=
            fun payload => Run [] [] (getitem payload "modèles")) =
       Return models) /\
    (forall d,
       payload = VDict d -> d !! "modèles" = None ->
       outcome
         (_make_request managers net self "GET" endpoint None use_proxy ≫=
            fun payload => Run [] [] (getitem payload "modèles")) =
       Raise (KeyError "modèles")) /\
    (forall x,
       outcome
         (_make_request managers net self "GET" endpoint None use_proxy ≫=
            fun payload => Run [] [] (getitem payload "modèles")) =
       Raise x ->
       typed_failure x = false).
Proof.
  intros Hcall.
  destruct (outbound_call_fields _ _ _ _ _ _ _ Hcall)
    as (Hmethod & Hurl & _ & Hjson).
  split; [by apply listing_calls|]. do 3 (split; [done|]).
  intros r payload Hnet Hstatus Hparsed.
  rewrite (listing_run _ call r payload); [|done|done|lia|done]. simpl.
  split; [|split].
  - intros d models -> Hd. simpl. by rewrite Hd.
  - intros d -> Hd. simpl. by rewrite Hd.
  - intros x. apply getitem_failure_untyped.
Qed.

End Listings.

(** C5. For a constructed client, the call of [get_llm_models] is a GET to
    the base URL joined with modeles and the call of [get_embedding_models]
    a GET to the base URL joined with embedding/models, both without a body;
    without the proxy flag that call is always issued.  On a 2xx response to
    it whose body parses to a payload, each returns the value the payload
    holds under the key modèles, unchanged; when the payload is a mapping
    without that key the [KeyError] of the subscript leaves the method as it
    is, and a failed subscript is never turned into one of the typed
    failures. *)
Theorem model_listings_subscript_payload
    (managers : string -> manager_outcome)
    (net : requests.Call -> requests.request_outcome)
    (self : OlympiaAPI) (use_proxy : bool) :
  constructed self ->
  let llm := get_llm_models managers net self use_proxy in
  let emb := get_embedding_models managers net self use_proxy in
  (use_proxy = false ->
   exists call_llm call_emb,
     outbound_call managers self "GET" "modeles" None use_proxy =
       Return call_llm /\
     outbound_call managers self "GET" "embedding/models" None use_proxy =
       Return call_emb) /\
  (forall call,
     outbound_call managers self "GET" "modeles" None use_proxy =
       Return call ->
     calls llm = [call] /\ requests.call_method call = "GET" /\
     requests.call_url call = "https://api.olympia.bhub.cloud/modeles" /\
     requests.call_json call = None /\
     forall r payload,
       net call = requests.Responds r ->
       200 <= requests.status_code r < 300 ->
       requests.json r = requests.JsonValue payload ->
       (forall d models,
          payload = VDict d -> d !! "modèles" = Some models ->
          outcome llm = Return models) /\
       (forall d,
          payload = VDict d -> d !! "modèles" = None ->
          outcome llm = Raise (KeyError "modèles")) /\
       (forall x, outcome llm = Raise x -> typed_failure x = false)) /\
  (forall call,
     outbound_call managers self "GET" "embedding/models" None use_proxy =
       Return call ->
     calls emb = [call] /\ requests.call_method call = "GET" /\
     requests.call_url call =
       "https://api.olympia.bhub.cloud/embedding/models" /\
     requests.call_json call = None /\
     forall r payload,
       net call = requests.Responds r ->
       200 <= requests.status_code r < 300 ->
       requests.json r = requests.JsonValue payload ->
       (forall d models,
          payload = VDict d -> d !! "modèles" = Some models ->
          outcome emb = Return models) /\
       (forall d,
          payload = VDict d -> d !! "modèles" = None ->
          outcome emb = Raise (KeyError "modèles")) /\
       (forall x, outcome emb = Raise x -> typed_failure x = false)).
Proof.
  intros Hself llm emb.
  destruct (constructed_fields _ Hself) as (_ & Hbase & _).
  split; [|split].
  - intros ->. do 2 eexists. split; apply outbound_call_direct.
  - intros call Hcall. subst llm. unfold get_llm_models.
    destruct (listing_of_payload managers net self use_proxy _ _ Hcall)
      as (Hcalls & Hmethod & Hurl & Hjson & Hpayload).
    rewrite Hbase in Hurl. done.
  - intros call Hcall. subst emb. unfold get_embedding_models.
    destruct (listing_of_payload managers net self use_proxy _ _ Hcall)
      as (Hcalls & Hmethod & Hurl & Hjson & Hpayload).
    rewrite Hbase in Hurl. done.
Qed.

Lemma model_listings_subscript_payload_witness :
  outcome (get_llm_models sample_managers
             (net_responding
                (sample_response 200 "OK" "" (requests.JsonValue models_payload)))
             sample_client false) =
  Return (VList [VStr "m1"; VStr "m2"]).
Proof.
  destruct (model_listings_subscript_payload sample_managers
              (net_responding
                 (sample_response 200 "OK" ""
                    (requests.JsonValue models_payload)))
              sample_client false sample_client_constructed)
    as (_ & Hllm & _).
  destruct (Hllm _ eq_refl) as (_ & _ & _ & _ & Hpayload).
  destruct (Hpayload _ models_payload eq_refl) as (Hfound & _);
    [simpl; lia | reflexivity |].
  eapply Hfound; reflexivity.
Defined.

Example listing_without_key :
  outcome (get_embedding_models sample_managers
             (net_responding
                (sample_response 200 "OK" "" (requests.JsonValue ok_payload)))
             sample_client true) =
  Raise (KeyError "modèles").
Proof. reflexivity. Qed.

Example listing_of_a_list :
  outcome (get_llm_models sample_managers
             (net_responding
                (sample_response 200 "OK" "[]"
                   (requests.JsonValue (VList []))))
             sample_client false) =
  Raise (TypeError "list indices must be integers or slices, not str").
Proof. reflexivity. Qed.

(** ** Embeddings *)

Lemma texts_refused_falsy (texts : value) :
  truthy texts = false -> texts_refused texts = Return true.
Proof. unfold texts_refused. by intros ->. Qed.

Lemma texts_refused_list (l : list value) :
  texts_refused (VList l) =
  Return (match l with [] => true | _ => negb (forallb isinstance_str l) end).
Proof. by destruct l. Qed.

Lemma forallb_isinstance_str_false (l : list value) (x : value) :
  x ∈ l -> isinstance_str x = false -> forallb isinstance_str l = false.
Proof.
  intros Hx Hstr. apply not_true_is_false. intros Hall.
  rewrite forallb_forall in Hall.
  rewrite (Hall x) in Hstr; [done|]. by apply list_elem_of_In.
Qed.

(** The failure of the validation is not one that the execution of a
    request raises. *)
Lemma execute_not_validation_failure
    (net : requests.Call -> requests.request_outcome) (call : requests.Call) :
  outcome (execute net call) <>
  Raise (ValueError "Texts must be a non-empty list of strings").
Proof.
  unfold execute. destruct (try_body _) as [v|e response]; [done|].
  simpl. unfold except_clauses. repeat (case_match; simpl; try done).
Qed.

Section Embeddings.

Variable managers : string -> manager_outcome.
Variable net : requests.Call -> requests.request_outcome.
Variable self : OlympiaAPI.

Lemma create_embedding_refused (texts : value) :
  texts_refused texts = Return true ->
  create_embedding managers net self texts =
    Run [] [] (Raise (ValueError "Texts must be a non-empty list of strings"))
  /\
  create_embedding_nubonyxia managers net self texts =
    Run [] [] (Raise (ValueError "Texts must be a non-empty list of strings")).
Proof.
  intros Href. unfold create_embedding, create_embedding_nubonyxia.
  by rewrite Href, !bind_Return.
Qed.

Lemma create_embedding_accepted (texts : value) :
  texts_refused texts = Return false ->
  create_embedding managers net self texts =
    _make_request managers net self "POST" "embedding"
      (Some (VDict {[ "model" := VStr (model self); "texts" := texts ]}))
      false
  /\
  create_embedding_nubonyxia managers net self texts =
    _make_request managers net self "POST" "embedding"
      (Some (VDict {[ "model" := VStr (model self); "texts" := texts ]}))
      true.
Proof.
  intros Href. unfold create_embedding, create_embedding_nubonyxia.
  by rewrite Href, !bind_Return.
Qed.

End Embeddings.

(** C2, amended.  For a constructed client: when [texts] is empty (false in
    a test, as the empty list is) or is a list with an element that is not a
    string, [create_embedding] and [create_embedding_nubonyxia] raise the
    [ValueError] of the validation without issuing any call or logging.
    When [texts] is a non-empty list of strings, [create_embedding] issues
    exactly one call, a POST to the base URL joined with embedding whose
    JSON body holds the model and the texts; [create_embedding_nubonyxia]
    issues the same call through a session whenever the set-up of the proxy
    builds it, and when that set-up raises leaves with its exception
    without any call. *)
Theorem embedding_validates_before_dispatch
    (managers : string -> manager_outcome)
    (net : requests.Call -> requests.request_outcome)
    (self : OlympiaAPI) (texts : value) :
  constructed self ->
  ((truthy texts = false \/
    exists l x, texts = VList l /\ x ∈ l /\ isinstance_str x = false) ->
   create_embedding managers net self texts =
     Run [] [] (Raise (ValueError "Texts must be a non-empty list of strings"))
   /\
   create_embedding_nubonyxia managers net self texts =
     Run [] [] (Raise (ValueError "Texts must be a non-empty list of strings")))
  /\
  ((exists l, texts = VList l /\ l <> [] /\ forallb isinstance_str l = true) ->
   (exists direct,
      calls (create_embedding managers net self texts) = [direct] /\
      requests.call_session direct = None /\
      requests.call_method direct = "POST" /\
      requests.call_url direct = "https://api.olympia.bhub.cloud/embedding" /\
      requests.call_headers direct = _get_headers self /\
      requests.call_json direct =
        Some (VDict {[ "model" := VStr (model self); "texts" := texts ]})) /\
   (forall proxied,
      outbound_call managers self "POST" "embedding"
        (Some (VDict {[ "model" := VStr (model self); "texts" := texts ]}))
        true = Return proxied ->
      calls (create_embedding_nubonyxia managers net self texts) =
        [proxied] /\
      is_Some (requests.call_session proxied) /\
      requests.call_method proxied = "POST" /\
      requests.call_url proxied =
        "https://api.olympia.bhub.cloud/embedding" /\
      requests.call_headers proxied = _get_headers self /\
      requests.call_json proxied =
        Some (VDict {[ "model" := VStr (model self); "texts" := texts ]})) /\
   (forall x,
      outbound_call managers self "POST" "embedding"
        (Some (VDict {[ "model" := VStr (model self); "texts" := texts ]}))
        true = Raise x ->
      create_embedding_nubonyxia managers net self texts =
      Run [] [] (Raise x))).
Proof.
  intros Hself. destruct (constructed_fields _ Hself) as (_ & Hbase & _).
  split.
  - intros Hbad. apply create_embedding_refused.
    destruct Hbad as [Hempty | (l & x & -> & Hx & Hstr)].
    + by apply texts_refused_falsy.
    + rewrite texts_refused_list. destruct l as [|y l]; [done|].
      by rewrite (forallb_isinstance_str_false _ x).
  - intros (l & -> & Hne & Hall).
    destruct (create_embedding_accepted managers net self (VList l))
      as [-> ->].
    { rewrite texts_refused_list. destruct l; [done|]. by rewrite Hall. }
    split; [|split].
    + eexists. split.
      { apply make_request_calls, outbound_call_direct. }
      simpl. by rewrite Hbase.
    + intros proxied Hcall.
      destruct (outbound_call_fields _ _ _ _ _ _ _ Hcall)
        as (Hmethod & Hurl & Hheaders & Hjson).
      rewrite Hbase in Hurl.
      split; [by apply make_request_calls|]. split; [|done].
      revert Hcall. unfold outbound_call.
      destruct (nubonyxia_proxy self) as [p|]; simpl;
        [|by intros [= <-]; eexists].
      destruct (negb (String.eqb p "")); [|by intros [= <-]; eexists].
      destruct (managers _); [done | by intros [= <-]; eexists].
    + intros x Hraise. by apply make_request_set_up_raised.
Qed.

Lemma embedding_validates_before_dispatch_witness :
  calls (create_embedding sample_managers (net_responding ok_response)
           sample_client (VList [VStr "a"; VInt 2])) = [] /\
  length (calls (create_embedding sample_managers (net_responding ok_response)
                   sample_client (VList [VStr "a"; VStr "b"]))) = 1%nat.
Proof.
  split.
  - destruct (embedding_validates_before_dispatch sample_managers
                (net_responding ok_response) sample_client
                (VList [VStr "a"; VInt 2]) sample_client_constructed)
      as [Hrefused _].
    destruct Hrefused as [-> _]; [|reflexivity].
    right. exists [VStr "a"; VInt 2], (VInt 2).
    split; [reflexivity|]. split; [|reflexivity].
    apply list_elem_of_In. simpl. tauto.
  - destruct (embedding_validates_before_dispatch sample_managers
                (net_responding ok_response) sample_client
                (VList [VStr "a"; VStr "b"]) sample_client_constructed)
      as [_ Haccepted].
    destruct Haccepted as ((direct & -> & _) & _); [|reflexivity].
    exists [VStr "a"; VStr "b"]. split; [reflexivity|].
    split; [discriminate | reflexivity].
Defined.

(** C2 as first stated fails for the method through the proxy: with the
    proxy address [::1, for which the adapter makes no manager, a non-empty
    list of strings passes the validation and yet no request is dispatched;
    the method leaves with the [ValueError] of the adapter. *)
Lemma embedding_dispatch_counterexample :
  constructed unparsable_proxy_client /\
  forallb isinstance_str [VStr "a"] = true /\
  create_embedding_nubonyxia sample_managers (net_responding ok_response)
    unparsable_proxy_client (VList [VStr "a"]) =
  Run [] [] (Raise (ValueError "Invalid IPv6 URL")).
Proof.
  split; [apply unparsable_proxy_client_constructed|]. split; reflexivity.
Qed.

Example embedding_of_empty_list :
  create_embedding sample_managers (net_responding ok_response) sample_client
    (VList []) =
  Run [] [] (Raise (ValueError "Texts must be a non-empty list of strings")).
Proof. reflexivity. Qed.

(** A true value that cannot be iterated fails in the test itself, with a
    [TypeError] and before any call. *)
Example embedding_of_a_number :
  create_embedding sample_managers (net_responding ok_response) sample_client
    (VInt 7) =
  Run [] [] (Raise (TypeError "'int' object is not iterable")).
Proof. reflexivity. Qed.

(** C10, amended.  The validation asks of the elements only that they are
    strings: a list of strings with an empty string among them is accepted,
    and [create_embedding] and [create_embedding_nubonyxia] go on to request
    execution instead of raising the [ValueError] of the validation.
    [create_embedding] issues one call carrying the texts;
    [create_embedding_nubonyxia] does so whenever the set-up of the proxy
    builds the call. *)
Theorem embedding_accepts_empty_strings
    (managers : string -> manager_outcome)
    (net : requests.Call -> requests.request_outcome)
    (self : OlympiaAPI) (l : list value) :
  VStr "" ∈ l ->
  forallb isinstance_str l = true ->
  texts_refused (VList l) = Return false /\
  create_embedding managers net self (VList l) =
    _make_request managers net self "POST" "embedding"
      (Some (VDict {[ "model" := VStr (model self); "texts" := VList l ]}))
      false /\
  create_embedding_nubonyxia managers net self (VList l) =
    _make_request managers net self "POST" "embedding"
      (Some (VDict {[ "model" := VStr (model self); "texts" := VList l ]}))
      true /\
  (exists call,
     calls (create_embedding managers net self (VList l)) = [call] /\
     requests.call_json call =
       Some (VDict {[ "model" := VStr (model self); "texts" := VList l ]}) /\
     outcome (create_embedding managers net self (VList l)) <>
       Raise (ValueError "Texts must be a non-empty list of strings")) /\
  (forall call,
     outbound_call managers self "POST" "embedding"
       (Some (VDict {[ "model" := VStr (model self); "texts" := VList l ]}))
       true = Return call ->
     calls (create_embedding_nubonyxia managers net self (VList l)) =
       [call] /\
     requests.call_json call =
       Some (VDict {[ "model" := VStr (model self); "texts" := VList l ]}) /\
     outcome (create_embedding_nubonyxia managers net self (VList l)) <>
       Raise (ValueError "Texts must be a non-empty list of strings")).
Proof.
  intros Hin Hall.
  assert (Href : texts_refused (VList l) = Return false).
  { rewrite texts_refused_list. destruct l; [by inversion Hin|].
    by rewrite Hall. }
  split; [done|].
  destruct (create_embedding_accepted managers net self (VList l) Href)
    as [-> ->].
  split; [done|]. split; [done|]. split.
  - eexists.
    rewrite (make_request_issued _ _ _ _ _ _ _ _
               (outbound_call_direct _ _ _ _ _)).
    split; [apply execute_calls|]. split; [done|].
    apply execute_not_validation_failure.
  - intros call Hcall.
    destruct (outbound_call_fields _ _ _ _ _ _ _ Hcall) as (_ & _ & _ & Hjson).
    rewrite (make_request_issued _ _ _ _ _ _ _ _ Hcall).
    split; [apply execute_calls|]. split; [done|].
    apply execute_not_validation_failure.
Qed.

Lemma embedding_accepts_empty_strings_witness :
  texts_refused (VList [VStr ""]) = Return false.
Proof.
  refine (proj1 (embedding_accepts_empty_strings sample_managers
                   (net_responding ok_response) sample_client [VStr ""]
                   _ eq_refl)).
  apply list_elem_of_In. simpl. tauto.
Defined.

(** C10 as first stated fails for the method through the proxy: with the
    proxy address [::1 the list holding one empty string passes the
    validation, and then no network call is dispatched. *)
Lemma embedding_empty_string_counterexample :
  constructed unparsable_proxy_client /\
  texts_refused (VList [VStr ""]) = Return false /\
  calls (create_embedding_nubonyxia sample_managers
           (net_responding ok_response) unparsable_proxy_client
           (VList [VStr ""])) = [] /\
  outcome (create_embedding_nubonyxia sample_managers
             (net_responding ok_response) unparsable_proxy_client
             (VList [VStr ""])) =
    Raise (ValueError "Invalid IPv6 URL").
Proof.
  split; [apply unparsable_proxy_client_constructed|]. repeat split.
Qed.

Example embedding_of_one_empty_string :
  length (calls (create_embedding sample_managers (net_raising connect_timeout)
                   sample_client (VList [VStr ""]))) = 1%nat /\
  length (calls (create_embedding_nubonyxia sample_managers
                   (net_raising connect_timeout)
                   sample_client (VList [VStr ""]))) = 1%nat.
Proof. split; reflexivity. Qed.

(** * Further properties of the client *)

(** ** Every public operation *)

(** The test of the embedding methods has three issues. *)
Lemma texts_refused_cases (texts : value) :
  texts_refused texts = Return true \/
  texts_refused texts = Return false \/
  texts_refused texts =
    Raise (TypeError ("'" +:+ type_name texts +:+ "' object is not iterable")).
Proof.
  unfold texts_refused. destruct (truthy texts); simpl; [|by left].
  destruct (py_iter texts) as [elements|]; [|by right; right].
  destruct (forallb isinstance_str elements); simpl; [right|]; by left.
Qed.

(** An operation stops before any call with the failure of the validation
    or of the iteration; or it stops before any call because the set-up of
    the proxy raised; or it is the execution of the one call the set-up
    built, followed by the subscript for the listing methods. *)
Lemma perform_shape (managers : string -> manager_outcome)
    (net : requests.Call -> requests.request_outcome)
    (self : OlympiaAPI) (op : operation) :
  (exists x,
     perform managers net self op = Run [] [] (Raise x) /\
     (x = ValueError "Texts must be a non-empty list of strings" \/
      exists msg, x = TypeError msg)) \/
  (exists method endpoint data x,
     outbound_call managers self method endpoint data true = Raise x /\
     perform managers net self op = Run [] [] (Raise x)) \/
  (exists method endpoint data use_proxy call,
     (method = "GET" \/ method = "POST") /\
     endpoint ∈ endpoints /\
     outbound_call managers self method endpoint data use_proxy =
       Return call /\
     perform managers net self op =
       if is_listing op then
         execute net call ≫=
           fun payload => Run [] [] (getitem payload "modèles")
       else execute net call).
Proof.
  assert (Hrequest : forall method endpoint data use_proxy (listing : bool),
    (method = "GET" \/ method = "POST") -> endpoint ∈ endpoints ->
    let r :=
      if listing then
        _make_request managers net self method endpoint data use_proxy ≫=
          fun payload => Run [] [] (getitem payload "modèles")
      else _make_request managers net self method endpoint data use_proxy in
    (exists m ep d x,
       outbound_call managers self m ep d true = Raise x /\
       r = Run [] [] (Raise x)) \/
    (exists m ep d up call,
       (m = "GET" \/ m = "POST") /\ ep ∈ endpoints /\
       outbound_call managers self m ep d up = Return call /\
       r = if listing then
             execute net call ≫=
               fun payload => Run [] [] (getitem payload "modèles")
           else execute net call)).
  { intros method endpoint data use_proxy listing Hm Hep r. subst r.
    destruct (outbound_call managers self method endpoint data use_proxy)
      as [call|x] eqn:Hcall.
    - right. exists method, endpoint, data, use_proxy, call.
      rewrite (make_request_issued _ _ _ _ _ _ _ _ Hcall). done.
    - left. exists method, endpoint, data, x.
      rewrite (make_request_set_up_raised _ _ _ _ _ _ _ _ Hcall).
      split; [|by destruct listing].
      destruct use_proxy; [done|].
      by rewrite outbound_call_direct in Hcall. }
  assert (Hgenerate : "generate" ∈ endpoints).
  { apply list_elem_of_In. simpl. tauto. }
  assert (Hembed : "embedding" ∈ endpoints).
  { apply list_elem_of_In. simpl. tauto. }
  assert (Hllm : "modeles" ∈ endpoints).
  { apply list_elem_of_In. simpl. tauto. }
  assert (Hemb : "embedding/models" ∈ endpoints).
  { apply list_elem_of_In. simpl. tauto. }
  destruct op as [prompt|prompt|texts|texts|use_proxy|use_proxy]; simpl.
  - right. apply (Hrequest "POST" "generate" _ false false); auto.
  - right. apply (Hrequest "POST" "generate" _ true false); auto.
  - unfold create_embedding.
    destruct (texts_refused_cases texts) as [-> | [-> | ->]].
    + left. rewrite bind_Return. eauto.
    + right. rewrite bind_Return.
      apply (Hrequest "POST" "embedding" _ false false); auto.
    + left. rewrite bind_Raise. eauto.
  - unfold create_embedding_nubonyxia.
    destruct (texts_refused_cases texts) as [-> | [-> | ->]].
    + left. rewrite bind_Return. eauto.
    + right. rewrite bind_Return.
      apply (Hrequest "POST" "embedding" _ true false); auto.
    + left. rewrite bind_Raise. eauto.
  - right. apply (Hrequest "GET" "modeles" None use_proxy true); auto.
  - right. apply (Hrequest "GET" "embedding/models" None use_proxy true); auto.
Qed.

(** The calls of an operation, in the third of these cases. *)
Lemma listing_or_not_calls (net : requests.Call -> requests.request_outcome)
    (call : requests.Call) (listing : bool) :
  calls (if listing then
           execute net call ≫=
             fun payload => Run [] [] (getitem payload "modèles")
         else execute net call) = [call].
Proof.
  destruct listing; [|apply execute_calls].
  rewrite bind_calls_step; [apply execute_calls | done].
Qed.

(** X1. Whatever the operation, its arguments and the transport, a public
    method issues at most one call; and a call it issues carries the
    client's three headers, uses GET or POST, and addresses the base URL
    joined by a slash with one of the four endpoints. *)
Theorem operations_issue_at_most_one_call
    (managers : string -> manager_outcome)
    (net : requests.Call -> requests.request_outcome)
    (self : OlympiaAPI) (op : operation) :
  (length (calls (perform managers net self op)) <= 1)%nat /\
  (forall call,
     call ∈ calls (perform managers net self op) ->
     calls (perform managers net self op) = [call] /\
     requests.call_headers call = _get_headers self /\
     (requests.call_method call = "GET" \/
      requests.call_method call = "POST") /\
     exists endpoint,
       endpoint ∈ endpoints /\
       requests.call_url call = base_url self +:+ "/" +:+ endpoint).
Proof.
  destruct (perform_shape managers net self op)
    as [(x & -> & _) | [(m & ep & d & x & _ & ->)
                       | (m & ep & d & up & c & Hm & Hep & Hcall & ->)]].
  - simpl. split; [lia|]. intros call Hin. by inversion Hin.
  - simpl. split; [lia|]. intros call Hin. by inversion Hin.
  - rewrite listing_or_not_calls. split; [simpl; lia|].
    intros call ->%list_elem_of_singleton.
    destruct (outbound_call_fields _ _ _ _ _ _ _ Hcall)
      as (Hmethod & Hurl & Hheaders & _).
    split; [done|]. split; [done|]. split; [by rewrite Hmethod|].
    by exists ep.
Qed.

Lemma operations_issue_at_most_one_call_witness :
  exists call,
    calls (perform sample_managers (net_responding ok_response) sample_client
             (OpChat "hi")) = [call] /\
    requests.call_headers call = _get_headers sample_client.
Proof.
  destruct (proj2 (operations_issue_at_most_one_call sample_managers
                     (net_responding ok_response) sample_client (OpChat "hi"))
              {| requests.call_session := None;
                 requests.call_method := "POST";
                 requests.call_url :=
                   "https://api.olympia.bhub.cloud/generate";
                 requests.call_headers := _get_headers sample_client;
                 requests.call_json :=
                   Some (VDict {[ "model" := VStr "test_model";
                                  "prompt" := VStr "hi" ]}) |})
    as (Hcalls & Hheaders & _).
  { apply list_elem_of_In. simpl. tauto. }
  eexists. split; [exact Hcalls | exact Hheaders].
Defined.

(** An operation that issued a call is the execution on that call, followed
    by the subscript for the listing methods. *)
Lemma perform_execute (managers : string -> manager_outcome)
    (net : requests.Call -> requests.request_outcome)
    (self : OlympiaAPI) (op : operation) (call : requests.Call) :
  calls (perform managers net self op) = [call] ->
  perform managers net self op =
    if is_listing op then
      execute net call ≫= fun payload => Run [] [] (getitem payload "modèles")
    else execute net call.
Proof.
  destruct (perform_shape managers net self op)
    as [(x & -> & _) | [(m & ep & d & x & _ & ->)
                       | (m & ep & d & up & c & _ & _ & _ & ->)]];
    [done | done |].
  rewrite listing_or_not_calls. by intros [= <-].
Qed.

(** X2. Every public method that reaches the network and gets a response
    with a status from 400 to 599 raises the [ValueError] of a rejected
    request, whose message names the status, the reason and the URL; the
    listing methods do so before any subscript.  This is what the tests of
    the failure of each method expect. *)
Theorem operations_reject_error_status
    (managers : string -> manager_outcome)
    (net : requests.Call -> requests.request_outcome)
    (self : OlympiaAPI) (op : operation) (call : requests.Call)
    (r : requests.Response) :
  calls (perform managers net self op) = [call] ->
  net call = requests.Responds r ->
  400 <= requests.status_code r < 600 ->
  outcome (perform managers net self op) =
  Raise (ValueError
    ("HTTP error occurred: " +:+ requests.decimal (requests.status_code r)
       +:+ (if requests.status_code r <? 500
            then " Client Error: " else " Server Error: ")
       +:+ requests.reason r +:+ " for url: " +:+ requests.url r)).
Proof.
  intros Hcalls Hnet Hstatus. rewrite (perform_execute _ _ _ _ _ Hcalls).
  rewrite (execute_error_status _ _ r) by done.
  by destruct (is_listing op).
Qed.

Lemma operations_reject_error_status_witness :
  outcome (perform sample_managers
             (net_responding
                (sample_response 400 "Bad Request" "rejected"
                   (requests.JsonValue VNone)))
             sample_client (OpChatNubonyxia "hi")) =
  Raise (ValueError
    "HTTP error occurred: 400 Client Error: Bad Request for url: https://api.olympia.bhub.cloud/generate").
Proof.
  refine (operations_reject_error_status sample_managers
            (net_responding
               (sample_response 400 "Bad Request" "rejected"
                  (requests.JsonValue VNone)))
            sample_client (OpChatNubonyxia "hi") _ _ eq_refl eq_refl _).
  simpl. lia.
Defined.

(** X3. The public methods add no handling of their own to request
    execution.  When an operation issued a call, a failure of the request
    execution on that call reaches the caller unchanged, with the same log;
    and a payload it returns is handed back as it is, or subscripted with
    the key of the listings for the two listing methods. *)
Theorem operations_pass_execution_through
    (managers : string -> manager_outcome)
    (net : requests.Call -> requests.request_outcome)
    (self : OlympiaAPI) (op : operation) (call : requests.Call) :
  calls (perform managers net self op) = [call] ->
  logged (perform managers net self op) = logged (execute net call) /\
  (forall x,
     outcome (execute net call) = Raise x ->
     outcome (perform managers net self op) = Raise x) /\
  (forall payload,
     outcome (execute net call) = Return payload ->
     outcome (perform managers net self op) =
     if is_listing op then getitem payload "modèles" else Return payload).
Proof.
  intros Hcalls. rewrite (perform_execute _ _ _ _ _ Hcalls).
  destruct (is_listing op); [|done].
  unfold mbind, run_bind, bind.
  destruct (outcome (execute net call)) as [v|y] eqn:Hout; simpl.
  - rewrite app_nil_r. split; [done|]. split; [done|]. by intros ? [= <-].
  - split; [done|]. split; [|done]. by intros ? [= <-].
Qed.

Lemma operations_pass_execution_through_witness :
  outcome (perform sample_managers (net_raising connect_timeout) sample_client
             (OpGetEmbeddingModels true)) =
  Raise (ConnectionError "Failed to connect: connect timed out").
Proof.
  refine (proj1 (proj2 (operations_pass_execution_through sample_managers
                          (net_raising connect_timeout) sample_client
                          (OpGetEmbeddingModels true) _ eq_refl)) _ _).
  reflexivity.
Defined.

(** ** Request execution: logging and the outcomes that exist *)

(** The log of an execution, by its outcome. *)
Lemma execute_logs (net : requests.Call -> requests.request_outcome)
    (call : requests.Call) :
  match outcome (execute net call) with
  | Return _ => logged (execute net call) = []
  | Raise x =>
      if typed_failure x then
        exists e response prefix suffix,
          try_body (net call) = Excepted e response /\
          logged (execute net call) =
            [prefix +:+ requests.exc_str e +:+ suffix]
      else logged (execute net call) = []
  end.
Proof.
  unfold execute.
  destruct (try_body _) as [v|e response] eqn:Hbody; simpl; [done|].
  unfold except_clauses.
  destruct (requests.isinstance e requests.ConnectionError); simpl.
  { exists e, response, "Connection error: ", "".
    by rewrite str_app_nil_r. }
  destruct (requests.isinstance e requests.Timeout); simpl.
  { exists e, response, "Timeout error: ", "". by rewrite str_app_nil_r. }
  destruct (requests.isinstance e requests.HTTPError); simpl.
  { destruct response as [r|]; simpl; [|done].
    by exists e, (Some r), "HTTP error: ",
      (", Response: " +:+
         (if requests.ok r then requests.text r else "No response")). }
  destruct (requests.isinstance e requests.RequestException); simpl; [|done].
  exists e, response, "Request error: ", "". by rewrite str_app_nil_r.
Qed.

(** X4. What [_make_request] logs.  When the set-up of the proxy raises,
    nothing, whatever the exception.  Once the call is built: nothing when a
    value is returned, exactly one line holding the text of the cause when
    one of the four typed failures is raised, and nothing when the
    exception it leaves with is none of them. *)
Theorem make_request_logs_typed_failures_once
    (managers : string -> manager_outcome)
    (net : requests.Call -> requests.request_outcome)
    (self : OlympiaAPI) (method endpoint : string) (data : option value)
    (use_proxy : bool) :
  match outbound_call managers self method endpoint data use_proxy with
  | Raise x =>
      _make_request managers net self method endpoint data use_proxy =
      Run [] [] (Raise x)
  | Return call =>
      match
        outcome (_make_request managers net self method endpoint data
                   use_proxy)
      with
      | Return _ =>
          logged (_make_request managers net self method endpoint data
                    use_proxy) = []
      | Raise x =>
          if typed_failure x then
            exists e response prefix suffix,
              try_body (net call) = Excepted e response /\
              logged (_make_request managers net self method endpoint data
                        use_proxy) =
                [prefix +:+ requests.exc_str e +:+ suffix]
          else
            logged (_make_request managers net self method endpoint data
                      use_proxy) = []
      end
  end.
Proof.
  destruct (outbound_call managers self method endpoint data use_proxy)
    as [call|x] eqn:Hcall.
  - rewrite (make_request_issued _ _ _ _ _ _ _ _ Hcall). apply execute_logs.
  - by apply make_request_set_up_raised.
Qed.

(** X5. The line logged for a rejected request never shows the body of the
    response.  The source writes the body when [response] is true and the
    words No response otherwise, and a response is true exactly when its
    status is not an error; for every status from 400 to 599 the line
    therefore ends with No response, whatever the body. *)
Theorem rejected_log_never_shows_body
    (managers : string -> manager_outcome)
    (net : requests.Call -> requests.request_outcome)
    (self : OlympiaAPI) (method endpoint : string) (data : option value)
    (use_proxy : bool) (call : requests.Call) (r : requests.Response) :
  outbound_call managers self method endpoint data use_proxy = Return call ->
  net call = requests.Responds r ->
  400 <= requests.status_code r < 600 ->
  logged (_make_request managers net self method endpoint data use_proxy) =
  ["HTTP error: " +:+ requests.decimal (requests.status_code r)
     +:+ (if requests.status_code r <? 500
          then " Client Error: " else " Server Error: ")
     +:+ requests.reason r +:+ " for url: " +:+ requests.url r
     +:+ ", Response: No response"].
Proof.
  intros Hcall Hnet Hstatus.
  rewrite (make_request_issued _ _ _ _ _ _ _ _ Hcall).
  by rewrite (execute_error_status _ _ r).
Qed.

Lemma rejected_log_never_shows_body_witness :
  logged (_make_request sample_managers
            (net_responding
               (sample_response 400 "Bad Request" "the body"
                  (requests.JsonValue VNone)))
            sample_client "POST" "generate" None false) =
  ["HTTP error: 400 Client Error: Bad Request for url: https://api.olympia.bhub.cloud/generate, Response: No response"].
Proof.
  refine (rejected_log_never_shows_body sample_managers
            (net_responding
               (sample_response 400 "Bad Request" "the body"
                  (requests.JsonValue VNone)))
            sample_client "POST" "generate" None false _ _
            eq_refl eq_refl _).
  simpl. lia.
Defined.

(** X6. The outcomes of [_make_request] are these and no others.  When the
    set-up of the proxy raises, that exception, with no call.  Otherwise
    one call is issued, and then: a value is returned only when a response
    came back with a status outside 400 to 599 and its body parsed to that
    value; an exception raised is one of the four typed failures, or the
    [UnboundLocalError] for [response], only when the call to [request]
    itself raised an [HTTPError], or an exception of the transport left
    uncaught, only when it is no [RequestException]. *)
Theorem make_request_outcomes
    (managers : string -> manager_outcome)
    (net : requests.Call -> requests.request_outcome)
    (self : OlympiaAPI) (method endpoint : string) (data : option value)
    (use_proxy : bool) :
  match outbound_call managers self method endpoint data use_proxy with
  | Raise x =>
      _make_request managers net self method endpoint data use_proxy =
      Run [] [] (Raise x)
  | Return call =>
      calls (_make_request managers net self method endpoint data use_proxy) =
        [call] /\
      match
        outcome (_make_request managers net self method endpoint data
                   use_proxy)
      with
      | Return v =>
          exists r,
            net call = requests.Responds r /\
            ~ 400 <= requests.status_code r < 600 /\
            requests.json r = requests.JsonValue v
      | Raise x =>
          typed_failure x = true \/
          (x = UnboundLocalError "response" /\
           exists e,
             net call = requests.Raises e /\
             requests.isinstance e requests.HTTPError = true) \/
          (exists e,
             x = Uncaught e /\
             requests.isinstance e requests.RequestException = false)
      end
  end.
Proof.
  destruct (outbound_call managers self method endpoint data use_proxy)
    as [call|x] eqn:Hcall; [|by apply make_request_set_up_raised].
  rewrite (make_request_issued _ _ _ _ _ _ _ _ Hcall).
  split; [apply execute_calls|].
  unfold execute, try_body.
  destruct (net call) as [e|r] eqn:Hnet; simpl.
  - unfold except_clauses.
    destruct (requests.isinstance e requests.ConnectionError); [by left|].
    destruct (requests.isinstance e requests.Timeout); [by left|].
    destruct (requests.isinstance e requests.HTTPError) eqn:Hhttp.
    { right; left. eauto. }
    destruct (requests.isinstance e requests.RequestException) eqn:Hreq;
      [by left|].
    right; right. eauto.
  - destruct (requests.raise_for_status r) as [e|] eqn:Hraise; simpl.
    { left. apply except_typed.
      - apply caught_classes_are_RequestExceptions.
        unfold requests.raise_for_status in Hraise.
        repeat case_match; by simplify_eq.
      - by eexists. }
    destruct (requests.json r) as [v|e] eqn:Hjson; simpl.
    + exists r. split; [done|]. split; [|done].
      intros Hstatus. by rewrite raise_for_status_error in Hraise.
    + unfold except_clauses.
      destruct (requests.isinstance e requests.ConnectionError); [by left|].
      destruct (requests.isinstance e requests.Timeout); [by left|].
      destruct (requests.isinstance e requests.HTTPError); [by left|].
      destruct (requests.isinstance e requests.RequestException) eqn:Hreq;
        [by left|].
      right; right. eauto.
Qed.

(** ** Request execution: edge cases *)

(** X7. An exception that is no [RequestException], raised by [request] or
    by [response.json()], is caught by no clause: it leaves [_make_request]
    as it is, after the one call, and nothing is logged. *)
Theorem foreign_exception_propagates
    (managers : string -> manager_outcome)
    (net : requests.Call -> requests.request_outcome)
    (self : OlympiaAPI) (method endpoint : string) (data : option value)
    (use_proxy : bool) (call : requests.Call) (e : requests.exception) :
  outbound_call managers self method endpoint data use_proxy = Return call ->
  requests.isinstance e requests.RequestException = false ->
  (net call = requests.Raises e \/
   exists r,
     net call = requests.Responds r /\
     ~ 400 <= requests.status_code r < 600 /\
     requests.json r = requests.JsonRaises e) ->
  _make_request managers net self method endpoint data use_proxy =
  Run [call] [] (Raise (Uncaught e)).
Proof.
  intros Hcall Hforeign Hcause.
  rewrite (make_request_issued _ _ _ _ _ _ _ _ Hcall).
  assert (Hclauses : forall response,
    except_clauses e response = ([], Uncaught e)).
  { intros response. unfold except_clauses.
    destruct (requests.isinstance e requests.ConnectionError) eqn:Hc.
    { rewrite caught_classes_are_RequestExceptions in Hforeign; [done|].
      by rewrite Hc. }
    destruct (requests.isinstance e requests.Timeout) eqn:Ht.
    { rewrite caught_classes_are_RequestExceptions in Hforeign; [done|].
      by rewrite Hc, Ht. }
    destruct (requests.isinstance e requests.HTTPError) eqn:Hh.
    { rewrite caught_classes_are_RequestExceptions in Hforeign; [done|].
      by rewrite Hc, Ht, Hh. }
    by rewrite Hforeign. }
  destruct Hcause as [Hnet | (r & Hnet & Hstatus & Hjson)].
  - rewrite (execute_excepted _ _ e None).
    + by rewrite Hclauses.
    + unfold try_body. by rewrite Hnet.
  - rewrite (execute_excepted _ _ e (Some r)).
    + by rewrite Hclauses.
    + unfold try_body. rewrite Hnet, raise_for_status_passes, Hjson; [done|].
      lia.
Qed.

Lemma foreign_exception_propagates_witness :
  outcome (_make_request sample_managers
             (net_raising
                (requests.Exception (requests.Foreign "KeyboardInterrupt") ""))
             sample_client "GET" "modeles" None false) =
  Raise (Uncaught
           (requests.Exception (requests.Foreign "KeyboardInterrupt") "")).
Proof.
  rewrite (foreign_exception_propagates sample_managers
             (net_raising
                (requests.Exception (requests.Foreign "KeyboardInterrupt") ""))
             sample_client "GET" "modeles" None false _
             (requests.Exception (requests.Foreign "KeyboardInterrupt") "")
             eq_refl eq_refl (or_introl eq_refl)).
  reflexivity.
Defined.

(** X8. When the call to [request] itself raises an [HTTPError], the clause
    for it reads the local [response] before it was ever assigned: the
    method leaves with an [UnboundLocalError], neither logging the error nor
    raising the [ValueError] of a rejected request. *)
Theorem http_error_without_response
    (managers : string -> manager_outcome)
    (net : requests.Call -> requests.request_outcome)
    (self : OlympiaAPI) (method endpoint : string) (data : option value)
    (use_proxy : bool) (call : requests.Call) (e : requests.exception) :
  outbound_call managers self method endpoint data use_proxy = Return call ->
  net call = requests.Raises e ->
  requests.exc_class e = requests.HTTPError ->
  _make_request managers net self method endpoint data use_proxy =
  Run [call] [] (Raise (UnboundLocalError "response")).
Proof.
  intros Hcall Hnet Hclass.
  rewrite (make_request_issued _ _ _ _ _ _ _ _ Hcall).
  rewrite (execute_excepted _ _ e None).
  - unfold except_clauses, requests.isinstance. by rewrite Hclass.
  - unfold try_body. by rewrite Hnet.
Qed.

Lemma http_error_without_response_witness :
  outcome (_make_request sample_managers
             (net_raising (requests.Exception requests.HTTPError "boom"))
             sample_client "POST" "generate" None true) =
  Raise (UnboundLocalError "response").
Proof.
  rewrite (http_error_without_response sample_managers
             (net_raising (requests.Exception requests.HTTPError "boom"))
             sample_client "POST" "generate" None true _
             (requests.Exception requests.HTTPError "boom")
             eq_refl eq_refl eq_refl).
  reflexivity.
Defined.

(** X9. A response with a passing status whose body is not JSON, so that
    [response.json()] raises the [JSONDecodeError] of the transport, is not
    returned: the method logs one line and raises the [RuntimeError] of the
    catch-all clause. *)
Theorem malformed_body_is_request_error
    (managers : string -> manager_outcome)
    (net : requests.Call -> requests.request_outcome)
    (self : OlympiaAPI) (method endpoint : string) (data : option value)
    (use_proxy : bool) (call : requests.Call)
    (r : requests.Response) (e : requests.exception) :
  outbound_call managers self method endpoint data use_proxy = Return call ->
  net call = requests.Responds r ->
  ~ 400 <= requests.status_code r < 600 ->
  requests.json r = requests.JsonRaises e ->
  requests.exc_class e = requests.JSONDecodeError ->
  _make_request managers net self method endpoint data use_proxy =
  Run [call]
      ["Request error: " +:+ requests.exc_str e]
      (Raise (RuntimeError ("Request failed: " +:+ requests.exc_str e))).
Proof.
  intros Hcall Hnet Hstatus Hjson Hclass.
  rewrite (make_request_issued _ _ _ _ _ _ _ _ Hcall).
  rewrite (execute_excepted _ _ e (Some r)).
  - rewrite except_RequestException; [done|..];
      unfold requests.isinstance; by rewrite Hclass.
  - unfold try_body. rewrite Hnet, raise_for_status_passes, Hjson; [done|].
    lia.
Qed.

Lemma malformed_body_is_request_error_witness :
  outcome (_make_request sample_managers
             (net_responding
                (sample_response 200 "OK" "<html>" (requests.JsonRaises not_json)))
             sample_client "POST" "generate" None false) =
  Raise (RuntimeError
           "Request failed: Expecting value: line 1 column 1 (char 0)").
Proof.
  rewrite (malformed_body_is_request_error sample_managers
             (net_responding
                (sample_response 200 "OK" "<html>"
                   (requests.JsonRaises not_json)))
             sample_client "POST" "generate" None false _ _ not_json
             eq_refl eq_refl); [reflexivity | simpl; lia | reflexivity..].
Defined.

(** X10. Success is decided by [raise_for_status] alone, not by a test for
    2xx: a response whose body parses is returned exactly when its status
    lies outside 400 to 599, so also for a 1xx or 3xx status. *)
Theorem parsed_response_returned_iff_status_passes
    (managers : string -> manager_outcome)
    (net : requests.Call -> requests.request_outcome)
    (self : OlympiaAPI) (method endpoint : string) (data : option value)
    (use_proxy : bool) (call : requests.Call)
    (r : requests.Response) (v : value) :
  outbound_call managers self method endpoint data use_proxy = Return call ->
  net call = requests.Responds r ->
  requests.json r = requests.JsonValue v ->
  (outcome (_make_request managers net self method endpoint data use_proxy) =
     Return v
   <-> ~ 400 <= requests.status_code r < 600) /\
  ((exists x,
      outcome (_make_request managers net self method endpoint data
                 use_proxy) = Raise x)
   <-> 400 <= requests.status_code r < 600).
Proof.
  intros Hcall Hnet Hjson.
  rewrite (make_request_issued _ _ _ _ _ _ _ _ Hcall).
  destruct (decide (400 <= requests.status_code r < 600)) as [Herr|Hpass].
  - rewrite (execute_error_status _ _ r) by done.
    simpl. split; split; try done; eauto.
  - rewrite (execute_success _ _ r v) by (done || lia).
    simpl. split; split; try done. by intros [x Hx].
Qed.

Lemma parsed_response_returned_iff_status_passes_witness :
  outcome (_make_request sample_managers
             (net_responding
                (sample_response 302 "Found" "null"
                   (requests.JsonValue VNone)))
             sample_client "GET" "modeles" None false) = Return VNone.
Proof.
  apply (parsed_response_returned_iff_status_passes sample_managers
           (net_responding
              (sample_response 302 "Found" "null"
                 (requests.JsonValue VNone)))
           sample_client "GET" "modeles" None false _ _ VNone
           eq_refl eq_refl eq_refl).
  simpl. lia.
Defined.

(** X11. Which exception of the transport becomes which failure, class by
    class.  [ConnectionError], [ProxyError], [SSLError] and [ConnectTimeout]
    give the built-in [ConnectionError]; [Timeout] and [ReadTimeout] give
    [TimeoutError]; every other class of the hierarchy except [HTTPError]
    gives [RuntimeError]. *)
Theorem failure_by_exception_class
    (managers : string -> manager_outcome)
    (net : requests.Call -> requests.request_outcome)
    (self : OlympiaAPI) (method endpoint : string) (data : option value)
    (use_proxy : bool) (call : requests.Call)
    (e : requests.exception) (response : option requests.Response) :
  outbound_call managers self method endpoint data use_proxy = Return call ->
  try_body (net call) = Excepted e response ->
  (In (requests.exc_class e)
      [requests.ConnectionError; requests.ProxyError; requests.SSLError;
       requests.ConnectTimeout] ->
   outcome (_make_request managers net self method endpoint data use_proxy) =
   Raise (ConnectionError ("Failed to connect: " +:+ requests.exc_str e))) /\
  (In (requests.exc_class e) [requests.Timeout; requests.ReadTimeout] ->
   outcome (_make_request managers net self method endpoint data use_proxy) =
   Raise (TimeoutError ("Request timed out: " +:+ requests.exc_str e))) /\
  (In (requests.exc_class e)
      [requests.RequestException; requests.InvalidJSONError;
       requests.JSONDecodeError; requests.URLRequired;
       requests.TooManyRedirects; requests.MissingSchema;
       requests.InvalidSchema; requests.InvalidURL; requests.InvalidHeader;
       requests.InvalidProxyURL; requests.ChunkedEncodingError;
       requests.ContentDecodingError; requests.StreamConsumedError;
       requests.RetryError; requests.UnrewindableBodyError] ->
   outcome (_make_request managers net self method endpoint data use_proxy) =
   Raise (RuntimeError ("Request failed: " +:+ requests.exc_str e))).
Proof.
  intros Hcall Hcause.
  rewrite (make_request_issued _ _ _ _ _ _ _ _ Hcall).
  rewrite (execute_excepted _ _ _ _ Hcause).
  unfold except_clauses, requests.isinstance. simpl.
  split; [|split]; intros Hclass;
    repeat (destruct Hclass as [<- | Hclass]; [reflexivity|]);
    destruct Hclass.
Qed.

Lemma failure_by_exception_class_witness :
  outcome (_make_request sample_managers
             (net_raising (requests.Exception requests.SSLError "bad cert"))
             sample_client "POST" "embedding" None false) =
  Raise (ConnectionError "Failed to connect: bad cert").
Proof.
  refine (proj1 (failure_by_exception_class sample_managers
                   (net_raising
                      (requests.Exception requests.SSLError "bad cert"))
                   sample_client "POST" "embedding" None false _
                   (requests.Exception requests.SSLError "bad cert") None
                   eq_refl eq_refl) _).
  simpl. tauto.
Defined.

(** ** Validation of the embedding input: what else it lets through *)

Lemma characters_are_strings (s : string) :
  forallb isinstance_str (characters s) = true.
Proof. induction s as [|c s IH]; simpl; done. Qed.

(** X12. The validation does not ask for a list.  A non-empty string is
    true and iterates over its characters, each of them a string; so both
    embedding methods accept it and send the string itself as the texts. *)
Theorem embedding_accepts_a_bare_string
    (managers : string -> manager_outcome)
    (net : requests.Call -> requests.request_outcome)
    (self : OlympiaAPI) (s : string) :
  s <> "" ->
  create_embedding managers net self (VStr s) =
    _make_request managers net self "POST" "embedding"
      (Some (VDict {[ "model" := VStr (model self); "texts" := VStr s ]}))
      false /\
  create_embedding_nubonyxia managers net self (VStr s) =
    _make_request managers net self "POST" "embedding"
      (Some (VDict {[ "model" := VStr (model self); "texts" := VStr s ]}))
      true.
Proof.
  intros Hs. apply create_embedding_accepted. unfold texts_refused. simpl.
  rewrite (proj2 (String.eqb_neq _ _) Hs). simpl.
  by rewrite characters_are_strings.
Qed.

Lemma embedding_accepts_a_bare_string_witness :
  length (calls (create_embedding sample_managers (net_responding ok_response)
                   sample_client (VStr "one text"))) = 1%nat.
Proof.
  rewrite (proj1 (embedding_accepts_a_bare_string sample_managers
                    (net_responding ok_response) sample_client "one text"
                    ltac:(discriminate))).
  reflexivity.
Defined.

(** X13. A true value that cannot be iterated, a non-zero integer or
    [True], makes the test itself fail: both embedding methods leave with a
    [TypeError], not the [ValueError] of the validation, and no call is
    issued. *)
Theorem embedding_of_non_iterable
    (managers : string -> manager_outcome)
    (net : requests.Call -> requests.request_outcome)
    (self : OlympiaAPI) (texts : value) :
  (texts = VBool true \/ exists z, z <> 0 /\ texts = VInt z) ->
  create_embedding managers net self texts =
    Run [] []
      (Raise (TypeError ("'" +:+ type_name texts
                           +:+ "' object is not iterable"))) /\
  create_embedding_nubonyxia managers net self texts =
    Run [] []
      (Raise (TypeError ("'" +:+ type_name texts
                           +:+ "' object is not iterable"))).
Proof.
  intros Htexts.
  assert (Href : texts_refused texts =
    Raise (TypeError ("'" +:+ type_name texts
                        +:+ "' object is not iterable"))).
  { destruct Htexts as [-> | (z & Hz & ->)]; [done|].
    unfold texts_refused. simpl.
    by rewrite (proj2 (Z.eqb_neq _ _) Hz). }
  unfold create_embedding, create_embedding_nubonyxia.
  by rewrite Href, !bind_Raise.
Qed.

Lemma embedding_of_non_iterable_witness :
  create_embedding sample_managers (net_responding ok_response) sample_client
    (VInt 7) =
  Run [] [] (Raise (TypeError "'int' object is not iterable")).
Proof.
  refine (proj1 (embedding_of_non_iterable sample_managers
                   (net_responding ok_response) sample_client (VInt 7) _)).
  right. exists 7. split; [lia | reflexivity].
Defined.




(** ** Construction, then use *)

Lemma init_returned environ model token_arg proxy self :
  outcome (__init__ environ model token_arg proxy) = Return self ->
  exists t,
    spec_first_resolved
      [token_arg; environ !! "OLYMPIA_API_KEY";
       environ !! "OLYMPIA_API_TOKEN"] = Some t /\
    self = {| token := t;
              model := model;
              base_url := "https://api.olympia.bhub.cloud";
              nubonyxia_proxy := py_or proxy (environ !! "PROXY");
              nubonyxia_user_agent :=
                "Mozilla/5.0 (Windows NT 10.0; Win64; x64; rv:102.0) Gecko/20100101 Firefox/102.0" |}.
Proof.
  rewrite init_run. destruct (spec_first_resolved _) as [t|]; [|done].
  intros [= <-]. eauto.
Qed.

(** The proxy a constructed client holds, against the two candidates. *)
Lemma init_proxy environ model token_arg proxy self :
  outcome (__init__ environ model token_arg proxy) = Return self ->
  match spec_first_resolved [proxy; environ !! "PROXY"] with
  | Some p => p <> "" /\ nubonyxia_proxy self = Some p
  | None => str_truthy (nubonyxia_proxy self) = false
  end.
Proof.
  intros (t & _ & ->)%init_returned. unfold py_or. cbn [nubonyxia_proxy].
  destruct proxy as [a|]; cbn [spec_first_resolved str_truthy].
  - destruct (String.eqb a "") eqn:Ha; cbn [negb].
    + destruct (environ !! "PROXY") as [b|]; [|done].
      cbn [str_truthy]. destruct (String.eqb b "") eqn:Hb; [done|].
      split; [by apply String.eqb_neq | done].
    + split; [by apply String.eqb_neq | done].
  - destruct (environ !! "PROXY") as [b|]; [|done].
    cbn [str_truthy]. destruct (String.eqb b "") eqn:Hb; [done|].
    split; [by apply String.eqb_neq | done].
Qed.

(** X15. The proxy is resolved like the token, from the argument and then
    the variable PROXY, but its absence is no error.  In a client the
    constructor returns, a call built with [use_proxy] goes through a
    session whose [proxies] send http and https to the first of the two that
    is present and not empty; when there is none, the call is always built,
    and goes through a fresh session without proxy settings. *)
Theorem constructed_proxy_routing
    (managers : string -> manager_outcome)
    (environ : gmap string string) (model : string)
    (token_arg proxy : option string) (self : OlympiaAPI)
    (method endpoint : string) (data : option value) :
  outcome (__init__ environ model token_arg proxy) = Return self ->
  match spec_first_resolved [proxy; environ !! "PROXY"] with
  | Some p =>
      p <> "" /\
      nubonyxia_proxy self = Some p /\
      forall call,
        outbound_call managers self method endpoint data true = Return call ->
        requests.proxies <$> requests.call_session call =
        Some {[ "http" := p; "https" := p ]}
  | None =>
      exists call,
        outbound_call managers self method endpoint data true = Return call /\
        requests.call_session call = Some requests.new_Session
  end.
Proof.
  intros Hinit. pose proof (init_proxy _ _ _ _ _ Hinit) as Hproxy.
  destruct (spec_first_resolved _) as [p|].
  - destruct Hproxy as [Hne Hp]. split; [done|]. split; [done|].
    intros call.
    rewrite (outbound_call_configured managers self method endpoint data p)
      by done.
    destruct (managers _) as [x|made]; [done|]. by intros [= <-].
  - eexists. split; [by apply outbound_call_unconfigured | done].
Qed.

Lemma constructed_proxy_routing_witness :
  exists call,
    outbound_call sample_managers sample_client "GET" "modeles" None true =
      Return call /\
    requests.proxies <$> requests.call_session call =
    Some {[ "http" := "proxy.example:3128"; "https" := "proxy.example:3128" ]}.
Proof.
  eexists. split; [reflexivity|].
  refine (proj2 (proj2 (constructed_proxy_routing sample_managers ∅
                          "test_model" (Some "secret")
                          (Some "proxy.example:3128") sample_client
                          "GET" "modeles" None eq_refl)) _ eq_refl).
Defined.

(** X16. The token resolved at construction is the one every request
    carries: in a client the constructor returns, each call of each public
    method has the Authorization header Bearer followed by the first
    candidate that is present and not empty, and an address under
    https://api.olympia.bhub.cloud/. *)
Theorem constructed_client_sends_resolved_token
    (managers : string -> manager_outcome)
    (environ : gmap string string) (model : string)
    (token_arg proxy : option string) (self : OlympiaAPI)
    (net : requests.Call -> requests.request_outcome) (op : operation)
    (call : requests.Call) :
  outcome (__init__ environ model token_arg proxy) = Return self ->
  call ∈ calls (perform managers net self op) ->
  exists t,
    spec_first_resolved
      [token_arg; environ !! "OLYMPIA_API_KEY";
       environ !! "OLYMPIA_API_TOKEN"] = Some t /\
    header_field "Authorization" (requests.call_headers call) =
      Some ("Bearer " +:+ t) /\
    startswith "https://api.olympia.bhub.cloud/" (requests.call_url call) =
      true.
Proof.
  intros Hinit Hin.
  destruct (init_returned _ _ _ _ _ Hinit) as (t & Ht & Hself).
  exists t. split; [done|].
  destruct (perform_shape managers net self op)
    as [(x & Hrun & _) | [(m & ep & d & x & _ & Hrun)
                         | (m & ep & d & up & c & _ & _ & Hcall & Hrun)]];
    rewrite Hrun in Hin.
  - by inversion Hin.
  - by inversion Hin.
  - rewrite listing_or_not_calls in Hin.
    apply list_elem_of_singleton in Hin as ->.
    destruct (outbound_call_fields _ _ _ _ _ _ _ Hcall)
      as (_ & -> & -> & _).
    subst self. split; [reflexivity|].
    cbn [base_url]. rewrite <- str_app_assoc. apply startswith_app.
Qed.

Lemma constructed_client_sends_resolved_token_witness :
  header_field "Authorization"
    (_get_headers sample_client) = Some "Bearer secret".
Proof.
  destruct (constructed_client_sends_resolved_token sample_managers
              ∅ "test_model" (Some "secret") (Some "proxy.example:3128")
              sample_client (net_responding ok_response) (OpChat "hi")
              {| requests.call_session := None;
                 requests.call_method := "POST";
                 requests.call_url :=
                   "https://api.olympia.bhub.cloud/generate";
                 requests.call_headers := _get_headers sample_client;
                 requests.call_json :=
                   Some (VDict {[ "model" := VStr "test_model";
                                  "prompt" := VStr "hi" ]}) |}
              eq_refl ltac:(apply list_elem_of_In; simpl; tauto))
    as (t & Ht & Hheader & _).
  injection Ht as <-. exact Hheader.
Defined.

(** ** The listing methods *)

(** X17. The tests of [get_embedding_models] register the address ending in
    embedding/modeles, while the method asks for embedding/models.  Called
    as those tests call it, without the proxy flag, against a network that
    refuses, with a [ConnectionError] of the transport, every call to
    another address than the registered one, the method of a constructed
    client raises the built-in [ConnectionError]: it neither returns a
    listing nor raises the [ValueError] those tests expect. *)
Theorem embedding_models_endpoint_is_not_the_tested_one
    (managers : string -> manager_outcome)
    (net : requests.Call -> requests.request_outcome)
    (self : OlympiaAPI) :
  constructed self ->
  (forall call,
     requests.call_url call <>
       "https://api.olympia.bhub.cloud/embedding/modeles" ->
     exists e,
       net call = requests.Raises e /\
       requests.isinstance e requests.ConnectionError = true) ->
  exists msg,
    outcome (get_embedding_models managers net self false) =
    Raise (ConnectionError msg).
Proof.
  intros Hself Hnet.
  destruct (constructed_fields _ Hself) as (_ & Hbase & _).
  pose proof (outbound_call_direct managers self "GET" "embedding/models"
                None) as Hcall.
  destruct (Hnet {| requests.call_session := None;
                    requests.call_method := "GET";
                    requests.call_url :=
                      base_url self +:+ "/" +:+ "embedding/models";
                    requests.call_headers := _get_headers self;
                    requests.call_json := None |})
    as (e & Hraises & Hconn).
  { cbn [requests.call_url]. by rewrite Hbase. }
  exists ("Failed to connect: " +:+ requests.exc_str e).
  unfold get_embedding_models.
  rewrite (make_request_issued _ _ _ _ _ _ _ _ Hcall).
  rewrite (execute_excepted _ _ e None).
  - by rewrite except_ConnectionError.
  - unfold try_body. by rewrite Hraises.
Qed.

Lemma embedding_models_endpoint_is_not_the_tested_one_witness :
  exists msg,
    outcome (get_embedding_models sample_managers (net_raising connect_timeout)
               sample_client false) =
    Raise (ConnectionError msg).
Proof.
  apply (embedding_models_endpoint_is_not_the_tested_one sample_managers
           (net_raising connect_timeout) sample_client
           sample_client_constructed).
  intros call _. exists connect_timeout. split; reflexivity.
Defined.

(** X18. A payload that is not a mapping (a list, a string, a number,
    [None]) makes both listing methods leave with the [TypeError] of the
    subscript, after the one call and with nothing logged. *)
Theorem listing_of_non_mapping
    (managers : string -> manager_outcome)
    (net : requests.Call -> requests.request_outcome)
    (self : OlympiaAPI) (use_proxy : bool) (endpoint : string)
    (list_models : run value) (call : requests.Call)
    (r : requests.Response) (payload : value) :
  (endpoint = "modeles" /\
   list_models = get_llm_models managers net self use_proxy \/
   endpoint = "embedding/models" /\
   list_models = get_embedding_models managers net self use_proxy) ->
  outbound_call managers self "GET" endpoint None use_proxy = Return call ->
  net call = requests.Responds r ->
  ~ 400 <= requests.status_code r < 600 ->
  requests.json r = requests.JsonValue payload ->
  (forall d, payload <> VDict d) ->
  exists msg, list_models = Run [call] [] (Raise (TypeError msg)).
Proof.
  intros Hwhich Hcall Hnet Hstatus Hjson Hpayload.
  assert (Hrun : list_models = Run [call] [] (getitem payload "modèles")).
  { destruct Hwhich as [[-> ->] | [-> ->]];
      unfold get_llm_models, get_embedding_models;
      by rewrite (listing_run _ _ _ _ _ call r payload) by (done || lia). }
  rewrite Hrun. destruct payload; simpl; eauto. by destruct (Hpayload d).
Qed.

Lemma listing_of_non_mapping_witness :
  exists msg,
    outcome
      (get_llm_models sample_managers
         (net_responding
            (sample_response 200 "OK" "[]" (requests.JsonValue (VList []))))
         sample_client false) =
    Raise (TypeError msg).
Proof.
  destruct (listing_of_non_mapping sample_managers
              (net_responding
                 (sample_response 200 "OK" "[]"
                    (requests.JsonValue (VList []))))
              sample_client false "modeles" _ _ _ (VList [])
              (or_introl (conj eq_refl eq_refl)) eq_refl eq_refl)
    as (msg & Hrun).
  - simpl. lia.
  - reflexivity.
  - discriminate.
  - exists msg. by rewrite Hrun.
Defined.

(** ** The proxy flag *)

(** X19. Once the set-up of the proxy has built the call, the proxy flag
    changes the route and nothing else: that call has the method, address,
    headers and body of the call built without the flag.  So when the
    network answers by these alone, [_make_request] with the flag has the
    outcome and the log it has without it; in particular [ChatNubonyxia]
    then gives what [Chat] gives, as the test that runs both expects. *)
Theorem proxy_flag_changes_route_only
    (managers : string -> manager_outcome)
    (net : requests.Call -> requests.request_outcome)
    (self : OlympiaAPI) (method endpoint : string) (data : option value)
    (proxied : requests.Call) :
  outbound_call managers self method endpoint data true = Return proxied ->
  (forall c c',
     requests.call_method c = requests.call_method c' ->
     requests.call_url c = requests.call_url c' ->
     requests.call_headers c = requests.call_headers c' ->
     requests.call_json c = requests.call_json c' ->
     net c = net c') ->
  (exists direct,
     outbound_call managers self method endpoint data false = Return direct /\
     requests.call_method proxied = requests.call_method direct /\
     requests.call_url proxied = requests.call_url direct /\
     requests.call_headers proxied = requests.call_headers direct /\
     requests.call_json proxied = requests.call_json direct) /\
  outcome (_make_request managers net self method endpoint data true) =
    outcome (_make_request managers net self method endpoint data false) /\
  logged (_make_request managers net self method endpoint data true) =
    logged (_make_request managers net self method endpoint data false) /\
  (forall prompt,
     method = "POST" -> endpoint = "generate" ->
     data = Some (VDict {[ "model" := VStr (model self);
                           "prompt" := VStr prompt ]}) ->
     outcome (ChatNubonyxia managers net self prompt) =
     outcome (Chat managers net self prompt)).
Proof.
  intros Hproxied Hnet.
  pose proof (outbound_call_direct managers self method endpoint data)
    as Hdirect.
  destruct (outbound_call_fields _ _ _ _ _ _ _ Hproxied)
    as (Hm & Hu & Hh & Hj).
  assert (Hsame :
    outcome (_make_request managers net self method endpoint data true) =
      outcome (_make_request managers net self method endpoint data false) /\
    logged (_make_request managers net self method endpoint data true) =
      logged (_make_request managers net self method endpoint data false)).
  { rewrite (make_request_issued _ _ _ _ _ _ _ _ Hproxied).
    rewrite (make_request_issued _ _ _ _ _ _ _ _ Hdirect).
    unfold execute.
    rewrite (Hnet proxied
               {| requests.call_session := None;
                  requests.call_method := method;
                  requests.call_url := base_url self +:+ "/" +:+ endpoint;
                  requests.call_headers := _get_headers self;
                  requests.call_json := data |}) by done.
    by destruct (try_body _). }
  split; [by eexists|]. split; [apply Hsame|]. split; [apply Hsame|].
  intros prompt -> -> ->. apply Hsame.
Qed.

Lemma proxy_flag_changes_route_only_witness :
  outcome (ChatNubonyxia sample_managers (net_responding ok_response)
             sample_client "hi") =
  outcome (Chat sample_managers (net_responding ok_response) sample_client
             "hi").
Proof.
  refine (proj2 (proj2 (proj2 (proxy_flag_changes_route_only sample_managers
                                 (net_responding ok_response) sample_client
                                 "POST" "generate" _ _ eq_refl _)))
            "hi" eq_refl eq_refl eq_refl).
  reflexivity.
Defined.
